(** * Family grocery backend: inventory, family, order and notification
      handlers, and the expiry classification of the inventory screen.

    The Express handlers of
      backend/src/controllers/inventoryController.ts,
      backend/src/controllers/familyController.ts,
      backend/src/controllers/notificationController.ts,
      the order controller, and
      src/screens/InventoryScreen.tsx (getExpiryStatus)
    are embedded as pure functions [Db -> ... -> Db * Response _]: the Prisma
    client is explicit state passing over one record of tables, each table a
    list of rows in storage order.  [new Date()], the random invite code and
    the identifiers the store generates are arguments of the handler that
    needs them.  A request body is a record of typed fields: a field stands
    for a value that passed the checks on its form ([isString], [isISO8601],
    [isURL], [isArray]), and the checks on its content ([isLength], [isFloat],
    [isInt], [isIn], the least array length) are computed.  The [include]
    clauses that join the user table into a response are left out, and so
    are failures of store constraints other than an update of a row that is
    not there. *)

From Stdlib Require Import ZArith List String Ascii Bool Lia.
From Stdlib Require Import Floats.PrimFloat.
Import ListNotations.

Local Open Scope string_scope.
Local Open Scope list_scope.

(** ** Base types *)

(** Prisma ids are strings. *)
Definition Id := string.

(** A JavaScript [Date], as milliseconds since the epoch. *)
Definition Date := Z.

(** A JavaScript [number]: an IEEE 754 binary64. *)
Definition number := float.

(** JavaScript truthiness of an optional string: [undefined], [null] and the
    empty string are falsy. *)
Definition truthy (s : option string) : bool :=
  match s with
  | Some v => negb (v =? "")
  | None => false
  end.

(** ** The store: what the handlers use of the Prisma client *)

Module Prisma.

(** [String.prototype.toLowerCase] / SQL [lower] on ASCII letters. *)
Definition lowerAscii (c : ascii) : ascii :=
  let n := nat_of_ascii c in
  if (65 <=? n)%nat && (n <=? 90)%nat then ascii_of_nat (n + 32) else c.

Fixpoint lower (s : string) : string :=
  match s with
  | EmptyString => EmptyString
  | String c s' => String (lowerAscii c) (lower s')
  end.

(** [{ equals: v, mode: 'insensitive' }] *)
Definition equalsInsensitive (field v : string) : bool :=
  lower field =? lower v.

Fixpoint includes (needle hay : string) : bool :=
  prefix needle hay ||
  match hay with
  | EmptyString => false
  | String _ hay' => includes needle hay'
  end.

(** [{ contains: v, mode: 'insensitive' }] *)
Definition containsInsensitive (field v : string) : bool :=
  includes (lower v) (lower field).

Section Table.
Context {Row : Type}.

(** [findFirst({ where })]: the first row, in storage order, that
    satisfies the filter. *)
Definition findFirst (where_ : Row -> bool) (rows : list Row) : option Row :=
  find where_ rows.

(** [findMany({ where })] *)
Definition findMany (where_ : Row -> bool) (rows : list Row) : list Row :=
  filter where_ rows.

(** [count({ where })] *)
Definition count (where_ : Row -> bool) (rows : list Row) : Z :=
  Z.of_nat (List.length (filter where_ rows)).

(** [create({ data })]: the new row is stored after the existing ones. *)
Definition create (row : Row) (rows : list Row) : list Row :=
  (rows ++ [row])%list.

(** [update({ where: { id }, data })]: rewrites the row stored under the
    unique key and returns it; [None] when no row has the key (Prisma
    throws, and the handler's [catch] answers 500). *)
Fixpoint update (key : Row -> bool) (data : Row -> Row) (rows : list Row)
  : list Row * option Row :=
  match rows with
  | [] => ([], None)
  | r :: rs =>
      if key r then (data r :: rs, Some (data r))
      else let '(rs', res) := update key data rs in (r :: rs', res)
  end.

(** [{ relation: { none: cond } }] *)
Definition none (cond : Row -> bool) (rows : list Row) : bool :=
  negb (existsb cond rows).
End Table.

End Prisma.

(** ** Models *)

Module FamilyMember.
Record t := mk {
  id : Id;
  familyId : Id;
  userId : Id;
  role : string;
  isActive : bool;
}.
End FamilyMember.

Module Family.
Record t := mk {
  id : Id;
  name : string;
  inviteCode : string;
  ownerId : Id;
}.
End Family.

Module InventoryItem.
Record t := mk {
  id : Id;
  familyId : Id;
  name : string;
  quantity : number;
  unit : string;
  category : string;
  barcode : option string;
  expiryDate : option Date;
  imageUrl : option string;
  notes : option string;
  addedBy : Id;
  isActive : bool;
  createdAt : Date;
  updatedAt : Date;
}.
End InventoryItem.

Module Merchant.
Record t := mk {
  id : Id;
  familyId : Id;
  name : string;
  isActive : bool;
}.
End Merchant.

Module Order.
Record t := mk {
  id : Id;
  familyId : Id;
  merchantId : option Id;
  status : string;
  notes : option string;
  createdBy : Id;
  createdAt : Date;
  updatedAt : Date;
  completedAt : option Date;
}.
End Order.

Module OrderItem.
Record t := mk {
  id : Id;
  orderId : Id;
  inventoryItemId : option Id;
  name : string;
  quantity : number;
  unit : string;
  notes : option string;
}.
End OrderItem.

Module Notification.
Record t := mk {
  id : Id;
  familyId : Id;
  type : string;
  title : string;
  message : string;
  recipients : list Id;
  (** the free-form payload, serialized *)
  data : option string;
  sentAt : Date;
}.
End Notification.

Module NotificationRead.
Record t := mk {
  notificationId : Id;
  userId : Id;
  readAt : Date;
}.
End NotificationRead.

(** The tables behind the Prisma client. *)
Record Db := mkDb {
  families : list Family.t;
  familyMembers : list FamilyMember.t;
  inventoryItems : list InventoryItem.t;
  merchants : list Merchant.t;
  orders : list Order.t;
  orderItems : list OrderItem.t;
  notifications : list Notification.t;
  notificationReads : list NotificationRead.t;
}.

Definition emptyDb : Db := mkDb [] [] [] [] [] [] [] [].

Definition withFamilies (db : Db) (v : list Family.t) : Db :=
  mkDb v (familyMembers db) (inventoryItems db) (merchants db) (orders db)
       (orderItems db) (notifications db) (notificationReads db).

Definition withFamilyMembers (db : Db) (v : list FamilyMember.t) : Db :=
  mkDb (families db) v (inventoryItems db) (merchants db) (orders db)
       (orderItems db) (notifications db) (notificationReads db).

Definition withInventoryItems (db : Db) (v : list InventoryItem.t) : Db :=
  mkDb (families db) (familyMembers db) v (merchants db) (orders db)
       (orderItems db) (notifications db) (notificationReads db).

Definition withOrders (db : Db) (v : list Order.t) : Db :=
  mkDb (families db) (familyMembers db) (inventoryItems db) (merchants db) v
       (orderItems db) (notifications db) (notificationReads db).

Definition withOrderItems (db : Db) (v : list OrderItem.t) : Db :=
  mkDb (families db) (familyMembers db) (inventoryItems db) (merchants db)
       (orders db) v (notifications db) (notificationReads db).

Definition withNotifications (db : Db) (v : list Notification.t) : Db :=
  mkDb (families db) (familyMembers db) (inventoryItems db) (merchants db)
       (orders db) (orderItems db) v (notificationReads db).

Definition withNotificationReads (db : Db) (v : list NotificationRead.t) : Db :=
  mkDb (families db) (familyMembers db) (inventoryItems db) (merchants db)
       (orders db) (orderItems db) (notifications db) v.

(** ** Responses: [res.status(code).json({ success, message, data })] *)

Record Response (A : Type) := mkResponse {
  status : Z;
  success : bool;
  message : option string;
  data : option A;
}.
Arguments mkResponse {A}.
Arguments status {A}.
Arguments success {A}.
Arguments message {A}.
Arguments data {A}.

Definition validationError {A} : Response A :=
  mkResponse 400 false (Some "Validation error") None.

Definition notPartOfFamily {A} : Response A :=
  mkResponse 404 false (Some "User not part of any family") None.

Definition internalError {A} : Response A :=
  mkResponse 500 false (Some "Internal server error") None.

(** [prisma.familyMember.findFirst({ where: { userId }, ... })], the lookup
    every handler starts with.  [familyMember.family.id] is the row's
    [familyId] (the relation's foreign key). *)
Definition findFamilyMember (db : Db) (userId : Id) : option FamilyMember.t :=
  Prisma.findFirst (fun m => FamilyMember.userId m =? userId) (familyMembers db).

(** ** express-validator checks used by the routes *)

(** [isLength({ min, max })] *)
Definition isLength (min max : nat) (s : string) : bool :=
  (min <=? String.length s)%nat && (String.length s <=? max)%nat.

(** [isFloat({ min })]: a finite number not below [min]. *)
Definition isFloat (min : number) (x : number) : bool :=
  negb (is_nan x) && negb (is_infinity x) && (min <=? x)%float.

(** [isInt({ min, max })] *)
Definition isInt (min : Z) (max : option Z) (x : Z) : bool :=
  (min <=? x)%Z && match max with Some m => (x <=? m)%Z | None => true end.

(** [isIn(values)] *)
Definition isIn (values : list string) (s : string) : bool :=
  existsb (String.eqb s) values.

(** [.optional()]: an absent field passes. *)
Definition optional {A} (check : A -> bool) (v : option A) : bool :=
  match v with Some x => check x | None => true end.

(** ** [orderBy] *)

Section OrderBy.
Context {Row : Type}.
Variable le : Row -> Row -> bool.

Fixpoint insertBy (x : Row) (rows : list Row) : list Row :=
  match rows with
  | [] => [x]
  | y :: rows' => if le x y then x :: y :: rows' else y :: insertBy x rows'
  end.

(** The rows in the order [le]; rows that compare equal keep their storage
    order. *)
Fixpoint sortBy (rows : list Row) : list Row :=
  match rows with
  | [] => []
  | x :: rows' => insertBy x (sortBy rows')
  end.
End OrderBy.

(** [orderBy: { field: 'asc' | 'desc' }] *)
Definition orderBy {Row} (le : Row -> Row -> bool) (sortOrder : string)
  (rows : list Row) : list Row :=
  if sortOrder =? "desc" then sortBy (fun a b => le b a) rows
  else sortBy le rows.

(** [skip] and [take] *)
Definition paginate {Row} (skip take : Z) (rows : list Row) : list Row :=
  firstn (Z.to_nat take) (skipn (Z.to_nat skip) rows).

(** ** backend/src/controllers/inventoryController.ts *)

Module InventoryController.
Import InventoryItem.

(** *** GET / *)

Record ListQuery := mkListQuery {
  q_page : option Z;
  q_limit : option Z;
  q_category : option string;
  q_search : option string;
  q_sortBy : option string;
  q_sortOrder : option string;
}.

Record ListData := mkListData {
  items : list InventoryItem.t;
  totalCount : Z;
  page : Z;
  hasMore : bool;
}.

Definition validateList (q : ListQuery) : bool :=
  optional (isInt 1 None) (q_page q) &&
  optional (isInt 1 (Some 100%Z)) (q_limit q) &&
  optional (isIn ["name"; "quantity"; "expiryDate"; "dateAdded"]) (q_sortBy q) &&
  optional (isIn ["asc"; "desc"]) (q_sortOrder q).

(** The [where] clause of the listing. *)
Definition listWhere (familyId : Id) (q : ListQuery) (i : InventoryItem.t) : bool :=
  (InventoryItem.familyId i =? familyId) &&
  InventoryItem.isActive i &&
  (if truthy (q_category q)
   then InventoryItem.category i =? match q_category q with Some c => c | None => "" end
   else true) &&
  (if truthy (q_search q)
   then Prisma.containsInsensitive (InventoryItem.name i)
          match q_search q with Some s => s | None => "" end
   else true).

(** A missing date sorts as the largest value (the store's default for
    NULL). *)
Definition dateLe (a b : option Date) : bool :=
  match a, b with
  | _, None => true
  | None, Some _ => false
  | Some x, Some y => (x <=? y)%Z
  end.

(** The column order behind [orderBy[field]]; names compare by character
    code. *)
Definition fieldLe (field : string) (a b : InventoryItem.t) : bool :=
  if field =? "name" then String.leb (InventoryItem.name a) (InventoryItem.name b)
  else if field =? "quantity"
    then (InventoryItem.quantity a <=? InventoryItem.quantity b)%float
  else if field =? "expiryDate"
    then dateLe (InventoryItem.expiryDate a) (InventoryItem.expiryDate b)
  else if field =? "createdAt"
    then (InventoryItem.createdAt a <=? InventoryItem.createdAt b)%Z
  else true.

Definition listItems (db : Db) (userId : Id) (q : ListQuery)
  : Db * Response ListData :=
  if negb (validateList q) then (db, validationError)
  else
    let page := match q_page q with Some p => p | None => 1%Z end in
    let limit := match q_limit q with Some l => l | None => 20%Z end in
    let sortBy := match q_sortBy q with Some s => s | None => "name" end in
    let sortOrder := match q_sortOrder q with Some s => s | None => "asc" end in
    match findFamilyMember db userId with
    | None => (db, notPartOfFamily)
    | Some familyMember =>
        let where_ := listWhere (FamilyMember.familyId familyMember) q in
        let field := if sortBy =? "dateAdded" then "createdAt" else sortBy in
        let items :=
          paginate ((page - 1) * limit) limit
            (orderBy (fieldLe field) sortOrder
               (Prisma.findMany where_ (inventoryItems db))) in
        let totalCount := Prisma.count where_ (inventoryItems db) in
        (db, mkResponse 200 true None
               (Some (mkListData items totalCount page
                        (page * limit <? totalCount)%Z)))
    end.

(** *** POST / *)

Record AddItemBody := mkAddItemBody {
  b_name : string;
  b_quantity : number;
  b_unit : option string;
  b_category : string;
  b_barcode : option string;
  b_expiryDate : option Date;
  b_imageUrl : option string;
  b_notes : option string;
}.

Record AddItemData := mkAddItemData {
  item : InventoryItem.t;
  isDuplicate : bool;
  previousQuantity : number;
}.

Definition validateAddItem (b : AddItemBody) : bool :=
  isLength 1 200 (b_name b) && isFloat 0%float (b_quantity b).

(** The duplicate lookup of the add handler. *)
Definition duplicateWhere (familyId : Id) (name : string) (i : InventoryItem.t) : bool :=
  (InventoryItem.familyId i =? familyId) &&
  Prisma.equalsInsensitive (InventoryItem.name i) name &&
  InventoryItem.isActive i.

Definition mergeQuantity (existingItem : InventoryItem.t) (quantity : number)
  (now : Date) (i : InventoryItem.t) : InventoryItem.t :=
  InventoryItem.mk (id i) (familyId i) (name i)
    (InventoryItem.quantity existingItem + quantity)%float
    (unit i) (category i) (barcode i) (expiryDate i) (imageUrl i) (notes i)
    (addedBy i) (isActive i) (createdAt i) now.

(** Modelled from the spec: the Prisma schema is not among the sources; a
    created item is active ([isActive] defaults to true), and its id and
    creation time come from the store. *)
Definition newItem (newId familyId userId : Id) (b : AddItemBody) (now : Date)
  : InventoryItem.t :=
  InventoryItem.mk newId familyId (b_name b) (b_quantity b)
    (match b_unit b with Some u => u | None => "pieces" end)
    (b_category b) (b_barcode b) (b_expiryDate b) (b_imageUrl b) (b_notes b)
    userId true now now.

Definition addItem (db : Db) (userId : Id) (b : AddItemBody) (now : Date)
  (newId : Id) : Db * Response AddItemData :=
  if negb (validateAddItem b) then (db, validationError)
  else
    match findFamilyMember db userId with
    | None => (db, notPartOfFamily)
    | Some familyMember =>
        let familyId := FamilyMember.familyId familyMember in
        match Prisma.findFirst (duplicateWhere familyId (b_name b))
                (inventoryItems db) with
        | Some existingItem =>
            match Prisma.update (fun i => InventoryItem.id i =? InventoryItem.id existingItem)
                    (mergeQuantity existingItem (b_quantity b) now)
                    (inventoryItems db) with
            | (rows, Some item) =>
                (withInventoryItems db rows,
                 mkResponse 201 true (Some "Item quantity updated")
                   (Some (mkAddItemData item true
                            (InventoryItem.quantity existingItem))))
            | (_, None) => (db, internalError)
            end
        | None =>
            let item := newItem newId familyId userId b now in
            (withInventoryItems db (Prisma.create item (inventoryItems db)),
             mkResponse 201 true (Some "Item added successfully")
               (Some (mkAddItemData item false 0%float)))
        end
    end.

(** *** PATCH /:itemId *)

Record UpdateItemBody := mkUpdateItemBody {
  u_quantity : option number;
  (** [Some None] is a value that is present but falsy. *)
  u_expiryDate : option (option Date);
  u_name : option string;
  u_category : option string;
  u_notes : option string;
}.

(** One key of [updateData] with its value. *)
Inductive Assignment :=
| SetQuantity (v : number)
| SetExpiryDate (v : option Date)
| SetName (v : string)
| SetCategory (v : string)
| SetNotes (v : string).

Definition keyOf (a : Assignment) : string :=
  match a with
  | SetQuantity _ => "quantity"
  | SetExpiryDate _ => "expiryDate"
  | SetName _ => "name"
  | SetCategory _ => "category"
  | SetNotes _ => "notes"
  end.

Record UpdateItemData := mkUpdateItemData {
  updatedItem : InventoryItem.t;
  updated : list string;
}.

Definition validateUpdateItem (b : UpdateItemBody) : bool :=
  optional (isFloat 0%float) (u_quantity b) &&
  optional (fun d => match d with Some _ => true | None => false end) (u_expiryDate b) &&
  optional (isLength 1 200) (u_name b).

Definition optList {A B} (f : A -> B) (v : option A) : list B :=
  match v with Some x => [f x] | None => [] end.

(** [updateData], its keys in the order they are assigned. *)
Definition buildUpdateData (b : UpdateItemBody) : list Assignment :=
  (optList SetQuantity (u_quantity b) ++
   optList SetExpiryDate (u_expiryDate b) ++
   optList SetName (u_name b) ++
   optList SetCategory (u_category b) ++
   optList SetNotes (u_notes b))%list.

Definition assign (i : InventoryItem.t) (a : Assignment) : InventoryItem.t :=
  match a with
  | SetQuantity v =>
      InventoryItem.mk (id i) (familyId i) (name i) v (unit i) (category i)
        (barcode i) (expiryDate i) (imageUrl i) (notes i) (addedBy i)
        (isActive i) (createdAt i) (updatedAt i)
  | SetExpiryDate v =>
      InventoryItem.mk (id i) (familyId i) (name i) (quantity i) (unit i)
        (category i) (barcode i) v (imageUrl i) (notes i) (addedBy i)
        (isActive i) (createdAt i) (updatedAt i)
  | SetName v =>
      InventoryItem.mk (id i) (familyId i) v (quantity i) (unit i)
        (category i) (barcode i) (expiryDate i) (imageUrl i) (notes i)
        (addedBy i) (isActive i) (createdAt i) (updatedAt i)
  | SetCategory v =>
      InventoryItem.mk (id i) (familyId i) (name i) (quantity i) (unit i) v
        (barcode i) (expiryDate i) (imageUrl i) (notes i) (addedBy i)
        (isActive i) (createdAt i) (updatedAt i)
  | SetNotes v =>
      InventoryItem.mk (id i) (familyId i) (name i) (quantity i) (unit i)
        (category i) (barcode i) (expiryDate i) (imageUrl i) (Some v)
        (addedBy i) (isActive i) (createdAt i) (updatedAt i)
  end.

Definition touch (now : Date) (i : InventoryItem.t) : InventoryItem.t :=
  InventoryItem.mk (id i) (familyId i) (name i) (quantity i) (unit i)
    (category i) (barcode i) (expiryDate i) (imageUrl i) (notes i)
    (addedBy i) (isActive i) (createdAt i) now.

(** [data: { ...updateData, updatedAt: new Date() }] *)
Definition applyUpdate (updateData : list Assignment) (now : Date)
  (i : InventoryItem.t) : InventoryItem.t :=
  touch now (fold_left assign updateData i).

(** The existence check shared by the update and delete handlers. *)
Definition ownedActive (itemId familyId : Id) (i : InventoryItem.t) : bool :=
  (InventoryItem.id i =? itemId) &&
  (InventoryItem.familyId i =? familyId) &&
  InventoryItem.isActive i.

Definition itemNotFound {A} : Response A :=
  mkResponse 404 false (Some "Item not found") None.

Definition updateItem (db : Db) (userId itemId : Id) (b : UpdateItemBody)
  (now : Date) : Db * Response UpdateItemData :=
  if negb (validateUpdateItem b) then (db, validationError)
  else
    let updateData := buildUpdateData b in
    match findFamilyMember db userId with
    | None => (db, notPartOfFamily)
    | Some familyMember =>
        match Prisma.findFirst
                (ownedActive itemId (FamilyMember.familyId familyMember))
                (inventoryItems db) with
        | None => (db, itemNotFound)
        | Some existingItem =>
            match Prisma.update (fun i => InventoryItem.id i =? itemId)
                    (applyUpdate updateData now) (inventoryItems db) with
            | (rows, Some updatedItem) =>
                (withInventoryItems db rows,
                 mkResponse 200 true (Some "Item updated successfully")
                   (Some (mkUpdateItemData updatedItem (map keyOf updateData))))
            | (_, None) => (db, internalError)
            end
        end
    end.

(** *** DELETE /:itemId *)

Definition softDelete (now : Date) (i : InventoryItem.t) : InventoryItem.t :=
  InventoryItem.mk (id i) (familyId i) (name i) (quantity i) (unit i)
    (category i) (barcode i) (expiryDate i) (imageUrl i) (notes i)
    (addedBy i) false (createdAt i) now.

Definition deleteItem (db : Db) (userId itemId : Id) (now : Date)
  : Db * Response Datatypes.unit :=
  match findFamilyMember db userId with
  | None => (db, notPartOfFamily)
  | Some familyMember =>
      match Prisma.findFirst
              (ownedActive itemId (FamilyMember.familyId familyMember))
              (inventoryItems db) with
      | None => (db, itemNotFound)
      | Some existingItem =>
          match Prisma.update (fun i => InventoryItem.id i =? itemId)
                  (softDelete now) (inventoryItems db) with
          | (rows, Some _) =>
              (withInventoryItems db rows,
               mkResponse 200 true (Some "Item deleted successfully") None)
          | (_, None) => (db, internalError)
          end
      end
  end.

End InventoryController.

(** ** backend/src/controllers/familyController.ts *)

Module FamilyController.

Record FamilyData := mkFamilyData {
  f_id : Id;
  f_name : string;
  f_inviteCode : option string;
  f_members : list FamilyMember.t;
}.

Definition alreadyMember {A} : Response A :=
  mkResponse 400 false (Some "User already belongs to a family") None.

(** Modelled from the spec: the Prisma schema is not among the sources; a
    created member row is active ([isActive] defaults to true), and its id
    comes from the store. *)
Definition newMember (newId familyId userId : Id) (role : string)
  : FamilyMember.t :=
  FamilyMember.mk newId familyId userId role true.

(** *** POST /
    [inviteCode] is the value of [generateInviteCode()]. *)
Definition createFamily (db : Db) (userId : Id) (name : string)
  (inviteCode : string) (newFamilyId newMemberId : Id)
  : Db * Response FamilyData :=
  if negb (isLength 1 100 name) then (db, validationError)
  else
    match findFamilyMember db userId with
    | Some existingFamily => (db, alreadyMember)
    | None =>
        let family := Family.mk newFamilyId name inviteCode userId in
        let member := newMember newMemberId newFamilyId userId "owner" in
        (withFamilyMembers
           (withFamilies db (Prisma.create family (families db)))
           (Prisma.create member (familyMembers db)),
         mkResponse 201 true (Some "Family created successfully")
           (Some (mkFamilyData (Family.id family) (Family.name family)
                    (Some (Family.inviteCode family)) [member])))
    end.

(** *** POST /join *)
Definition joinFamily (db : Db) (userId : Id) (inviteCode : string)
  (newMemberId : Id) : Db * Response FamilyData :=
  if negb (isLength 6 6 inviteCode) then (db, validationError)
  else
    match findFamilyMember db userId with
    | Some existingFamily => (db, alreadyMember)
    | None =>
        match Prisma.findFirst (fun f => Family.inviteCode f =? inviteCode)
                (families db) with
        | None => (db, mkResponse 404 false (Some "Invalid invite code") None)
        | Some family =>
            (withFamilyMembers db
               (Prisma.create
                  (newMember newMemberId (Family.id family) userId "member")
                  (familyMembers db)),
             mkResponse 200 true (Some "Successfully joined family")
               (Some (mkFamilyData (Family.id family) (Family.name family)
                        None [])))
        end
    end.

End FamilyController.

(** ** The order controller *)

Module OrderController.

Record ItemInput := mkItemInput {
  i_inventoryItemId : option Id;
  i_name : string;
  i_quantity : number;
  i_unit : option string;
  i_notes : option string;
}.

Record CreateOrderBody := mkCreateOrderBody {
  b_merchantId : option Id;
  b_items : list ItemInput;
  b_notes : option string;
}.

Record OrderData := mkOrderData {
  order : Order.t;
  items : list OrderItem.t;
}.

(** [isArray({ min: 1 })] *)
Definition isArrayMin1 {A} (l : list A) : bool :=
  (1 <=? List.length l)%nat.

(** The double nearest to 0.1, the [min] of the quantity check. *)
Definition minQuantity : number := 0x1.999999999999ap-4%float.

Definition validateCreateOrder (b : CreateOrderBody) : bool :=
  isArrayMin1 (b_items b) &&
  forallb (fun i => isLength 1 200 (i_name i)) (b_items b) &&
  forallb (fun i => isFloat minQuantity (i_quantity i)) (b_items b).

Definition merchantNotFound {A} : Response A :=
  mkResponse 404 false (Some "Merchant not found") None.

(** One nested [items.create] row; [item.unit || 'pieces']. *)
Definition newOrderItem (newId orderId : Id) (i : ItemInput) : OrderItem.t :=
  OrderItem.mk newId orderId (i_inventoryItemId i) (i_name i) (i_quantity i)
    (if truthy (i_unit i)
     then match i_unit i with Some u => u | None => "" end
     else "pieces")
    (i_notes i).

Fixpoint newOrderItems (newItemId : nat -> Id) (n : nat) (orderId : Id)
  (inputs : list ItemInput) : list OrderItem.t :=
  match inputs with
  | [] => []
  | i :: inputs' =>
      newOrderItem (newItemId n) orderId i
        :: newOrderItems newItemId (S n) orderId inputs'
  end.

(** Modelled from the spec: the Prisma schema is not among the sources; a
    created order starts in status pending, not completed, and its id and
    those of its items come from the store. *)
Definition newOrder (newId familyId userId : Id) (b : CreateOrderBody)
  (now : Date) : Order.t :=
  Order.mk newId familyId (b_merchantId b) "pending" (b_notes b) userId
    now now None.

(** *** POST /
    The nested create writes the order and its items in one statement. *)
Definition createOrder (db : Db) (userId : Id) (b : CreateOrderBody)
  (now : Date) (newOrderId : Id) (newItemId : nat -> Id)
  : Db * Response OrderData :=
  if negb (validateCreateOrder b) then (db, validationError)
  else
    match findFamilyMember db userId with
    | None => (db, notPartOfFamily)
    | Some familyMember =>
        let familyId := FamilyMember.familyId familyMember in
        let merchantOk :=
          if truthy (b_merchantId b)
          then
            match Prisma.findFirst
                    (fun m => (Merchant.id m =?
                                 match b_merchantId b with Some x => x | None => "" end) &&
                              (Merchant.familyId m =? familyId) &&
                              Merchant.isActive m)
                    (merchants db) with
            | Some _ => true
            | None => false
            end
          else true in
        if negb merchantOk then (db, merchantNotFound)
        else
          let order := newOrder newOrderId familyId userId b now in
          let items := newOrderItems newItemId 0 newOrderId (b_items b) in
          (withOrderItems
             (withOrders db (Prisma.create order (orders db)))
             (orderItems db ++ items)%list,
           mkResponse 201 true (Some "Order created successfully")
             (Some (mkOrderData order items)))
    end.

(** *** PATCH /:orderId/status *)

Definition setStatus (status : string) (now : Date) (o : Order.t) : Order.t :=
  Order.mk (Order.id o) (Order.familyId o) (Order.merchantId o) status
    (Order.notes o) (Order.createdBy o) (Order.createdAt o) now
    (if status =? "completed" then Some now else Order.completedAt o).

Definition updateOrderStatus (db : Db) (userId orderId : Id) (status : string)
  (now : Date) : Db * Response OrderData :=
  if negb (isIn ["pending"; "processing"; "completed"; "cancelled"] status)
  then (db, validationError)
  else
    match findFamilyMember db userId with
    | None => (db, notPartOfFamily)
    | Some familyMember =>
        match Prisma.findFirst
                (fun o => (Order.id o =? orderId) &&
                          (Order.familyId o =? FamilyMember.familyId familyMember))
                (orders db) with
        | None => (db, mkResponse 404 false (Some "Order not found") None)
        | Some existingOrder =>
            match Prisma.update (fun o => Order.id o =? orderId)
                    (setStatus status now) (orders db) with
            | (rows, Some updatedOrder) =>
                (withOrders db rows,
                 mkResponse 200 true (Some "Order status updated successfully")
                   (Some (mkOrderData updatedOrder
                            (Prisma.findMany
                               (fun i => OrderItem.orderId i =? orderId)
                               (orderItems db)))))
            | (_, None) => (db, internalError)
            end
        end
    end.

End OrderController.

(** ** backend/src/controllers/notificationController.ts *)

Module NotificationController.

(** *** GET / *)

Record ListQuery := mkListQuery {
  q_type : option string;
  q_read : option bool;
  q_limit : option Z;
}.

Record ListData := mkListData {
  l_notifications : list Notification.t;
  l_unreadCount : Z;
}.

(** [reads: { none: { userId } }] on a notification. *)
Definition noReadBy (db : Db) (userId : Id) (n : Notification.t) : bool :=
  Prisma.none (fun r => NotificationRead.userId r =? userId)
    (Prisma.findMany
       (fun r => NotificationRead.notificationId r =? Notification.id n)
       (notificationReads db)).

(** The unread count query of the listing. *)
Definition unreadCount (db : Db) (familyId userId : Id) : Z :=
  Prisma.count
    (fun n => (Notification.familyId n =? familyId) && noReadBy db userId n)
    (notifications db).

Definition getNotifications (db : Db) (userId : Id) (q : ListQuery)
  : Db * Response ListData :=
  if negb (optional (isInt 1 (Some 100%Z)) (q_limit q))
  then (db, validationError)
  else
    let limit := match q_limit q with Some l => l | None => 20%Z end in
    match findFamilyMember db userId with
    | None => (db, notPartOfFamily)
    | Some familyMember =>
        let familyId := FamilyMember.familyId familyMember in
        let where_ (n : Notification.t) :=
          (Notification.familyId n =? familyId) &&
          (if truthy (q_type q)
           then Notification.type n =? match q_type q with Some t => t | None => "" end
           else true) in
        let notifications :=
          paginate 0 limit
            (orderBy (fun a b => (Notification.sentAt a <=? Notification.sentAt b)%Z)
               "desc" (Prisma.findMany where_ (notifications db))) in
        (db, mkResponse 200 true None
               (Some (mkListData notifications (unreadCount db familyId userId))))
    end.

(** *** POST /:notificationId/read *)

Definition readKey (notificationId userId : Id) (r : NotificationRead.t) : bool :=
  (NotificationRead.notificationId r =? notificationId) &&
  (NotificationRead.userId r =? userId).

(** Modelled from the spec: the Prisma schema is not among the sources; a
    created read row has [readAt = now]. *)
Definition newRead (notificationId userId : Id) (now : Date) : NotificationRead.t :=
  NotificationRead.mk notificationId userId now.

(** [notificationRead.upsert] on the compound key (notificationId, userId). *)
Definition upsertRead (notificationId userId : Id) (now : Date)
  (rows : list NotificationRead.t) : list NotificationRead.t :=
  match Prisma.findFirst (readKey notificationId userId) rows with
  | Some _ =>
      fst (Prisma.update (readKey notificationId userId)
             (fun r => NotificationRead.mk (NotificationRead.notificationId r)
                         (NotificationRead.userId r) now)
             rows)
  | None => Prisma.create (newRead notificationId userId now) rows
  end.

Definition markRead (db : Db) (userId notificationId : Id) (now : Date)
  : Db * Response Datatypes.unit :=
  match findFamilyMember db userId with
  | None => (db, notPartOfFamily)
  | Some familyMember =>
      match Prisma.findFirst
              (fun n => (Notification.id n =? notificationId) &&
                        (Notification.familyId n =? FamilyMember.familyId familyMember))
              (notifications db) with
      | None => (db, mkResponse 404 false (Some "Notification not found") None)
      | Some notification =>
          (withNotificationReads db
             (upsertRead notificationId userId now (notificationReads db)),
           mkResponse 200 true (Some "Notification marked as read") None)
      end
  end.

(** *** createNotification *)

(** Modelled from the spec: the Prisma schema is not among the sources; the
    sent timestamp of a created notification is the creation time, and its
    id comes from the store. *)
Definition newNotification (newId familyId : Id) (type title message : string)
  (recipients : list Id) (data : option string) (now : Date) : Notification.t :=
  Notification.mk newId familyId type title message recipients data now.

Definition createNotification (db : Db) (familyId : Id) (type title message : string)
  (recipients : list Id) (data : option string) (now : Date) (newId : Id)
  : Db * Notification.t :=
  let notification :=
    newNotification newId familyId type title message recipients data now in
  (withNotifications db (Prisma.create notification (notifications db)),
   notification).

(** *** POST /send *)

Record SendBody := mkSendBody {
  s_type : string;
  s_title : string;
  s_message : string;
  s_recipients : option (list Id);
  s_data : option string;
}.

Definition validateSend (b : SendBody) : bool :=
  isLength 1 200 (s_title b) && (1 <=? String.length (s_message b))%nat.

Definition sendNotification (db : Db) (userId : Id) (b : SendBody)
  (now : Date) (newId : Id) : Db * Response Notification.t :=
  if negb (validateSend b) then (db, validationError)
  else
    match findFamilyMember db userId with
    | None => (db, notPartOfFamily)
    | Some familyMember =>
        let familyId := FamilyMember.familyId familyMember in
        let notificationRecipients :=
          match s_recipients b with
          | Some (r :: rs) => r :: rs
          | _ =>
              map FamilyMember.userId
                (Prisma.findMany
                   (fun m => (FamilyMember.familyId m =? familyId) &&
                             FamilyMember.isActive m)
                   (familyMembers db))
          end in
        let '(db', notification) :=
          createNotification db familyId (s_type b) (s_title b) (s_message b)
            notificationRecipients (s_data b) now newId in
        (db', mkResponse 201 true (Some "Notification sent successfully")
                (Some notification))
    end.

End NotificationController.

(** ** src/screens/InventoryScreen.tsx *)

Module InventoryScreen.

Inductive ExpiryStatus := fresh | expiring | expired.

Definition MS_PER_DAY : Z := 1000 * 60 * 60 * 24.

(** [Math.ceil(a / b)] for a positive [b].  For two instants less than
    2^53 ms apart the difference is exact and the double quotient by one day
    has the ceiling of the exact quotient. *)
Definition ceilDiv (a b : Z) : Z := (- ((- a) / b))%Z.

(** [today] is the instant [new Date()] of the call. *)
Definition daysUntilExpiry (today expiryDate : Date) : Z :=
  ceilDiv (expiryDate - today) MS_PER_DAY.

Definition getExpiryStatus (today : Date) (item : InventoryItem.t) : ExpiryStatus :=
  match InventoryItem.expiryDate item with
  | None => fresh
  | Some expiryDate =>
      let daysUntilExpiry := daysUntilExpiry today expiryDate in
      if (daysUntilExpiry <? 0)%Z then expired
      else if (daysUntilExpiry <=? 2)%Z then expiring
      else fresh
  end.

End InventoryScreen.

(** ** The handlers as one transition system *)

Inductive Request :=
| ListItems (userId : Id) (q : InventoryController.ListQuery)
| AddItem (userId : Id) (b : InventoryController.AddItemBody) (now : Date) (newId : Id)
| UpdateItem (userId itemId : Id) (b : InventoryController.UpdateItemBody) (now : Date)
| DeleteItem (userId itemId : Id) (now : Date)
| CreateFamily (userId : Id) (name inviteCode : string) (newFamilyId newMemberId : Id)
| JoinFamily (userId : Id) (inviteCode : string) (newMemberId : Id)
| CreateOrder (userId : Id) (b : OrderController.CreateOrderBody) (now : Date)
    (newOrderId : Id) (newItemId : nat -> Id)
| UpdateOrderStatus (userId orderId : Id) (status : string) (now : Date)
| GetNotifications (userId : Id) (q : NotificationController.ListQuery)
| MarkRead (userId notificationId : Id) (now : Date)
| SendNotification (userId : Id) (b : NotificationController.SendBody) (now : Date)
    (newId : Id).

(** The store after a request. *)
Definition handle (db : Db) (r : Request) : Db :=
  match r with
  | ListItems u q => fst (InventoryController.listItems db u q)
  | AddItem u b now newId => fst (InventoryController.addItem db u b now newId)
  | UpdateItem u i b now => fst (InventoryController.updateItem db u i b now)
  | DeleteItem u i now => fst (InventoryController.deleteItem db u i now)
  | CreateFamily u n c f m => fst (FamilyController.createFamily db u n c f m)
  | JoinFamily u c m => fst (FamilyController.joinFamily db u c m)
  | CreateOrder u b now o i => fst (OrderController.createOrder db u b now o i)
  | UpdateOrderStatus u o s now => fst (OrderController.updateOrderStatus db u o s now)
  | GetNotifications u q => fst (NotificationController.getNotifications db u q)
  | MarkRead u n now => fst (NotificationController.markRead db u n now)
  | SendNotification u b now newId =>
      fst (NotificationController.sendNotification db u b now newId)
  end.

(** The stores the routes can produce from the empty one.  The routes that
    are not embedded above (authentication, merchants, member management and
    the read-only order routes) write to neither order table; a step of
    theirs is any change that leaves both as they are. *)
Inductive reachable : Db -> Prop :=
| reachable_empty : reachable emptyDb
| reachable_step db r : reachable db -> reachable (handle db r)
| reachable_other db db' :
    reachable db ->
    orders db' = orders db -> orderItems db' = orderItems db ->
    reachable db'.

(** ** Vocabulary of the statements *)

(** The primary key of the inventory table. *)
Definition uniqueItemIds (db : Db) : Prop :=
  NoDup (map InventoryItem.id (inventoryItems db)).

(** The primary key of the notification table. *)
Definition uniqueNotificationIds (db : Db) : Prop :=
  NoDup (map Notification.id (notifications db)).

(** An active item of the family whose name is [name] up to case. *)
Definition activeNamed (familyId : Id) (name : string) (i : InventoryItem.t) : Prop :=
  InventoryItem.familyId i = familyId /\
  InventoryItem.isActive i = true /\
  Prisma.lower (InventoryItem.name i) = Prisma.lower name.

(** The inventory rows of one family. *)
Definition itemsOf (familyId : Id) (db : Db) : list InventoryItem.t :=
  filter (fun i => InventoryItem.familyId i =? familyId) (inventoryItems db).

(** The user has a member row that is active. *)
Definition hasActiveMembership (db : Db) (userId : Id) : bool :=
  existsb (fun m => (FamilyMember.userId m =? userId) && FamilyMember.isActive m)
    (familyMembers db).

(** Every order has at least one item row. *)
Definition ordersHaveItems (db : Db) : Prop :=
  forall o, In o (orders db) ->
    exists i, In i (orderItems db) /\ OrderItem.orderId i = Order.id o.

(** The number of read rows of a (notification, user) pair. *)
Definition readRows (db : Db) (notificationId userId : Id) : Z :=
  Prisma.count (NotificationController.readKey notificationId userId)
    (notificationReads db).

(** The unread count in the words of the specification: the family's
    notifications for which no read row of the user exists. *)
Definition unreadCountSpec (db : Db) (familyId userId : Id) : Z :=
  Z.of_nat
    (List.length
       (filter
          (fun n =>
             (Notification.familyId n =? familyId) &&
             negb (existsb
                     (fun r =>
                        (NotificationRead.notificationId r =? Notification.id n) &&
                        (NotificationRead.userId r =? userId))
                     (notificationReads db)))
          (notifications db))).

(** The store with every notification addressed anew. *)
Definition readdress (f : Notification.t -> list Id) (n : Notification.t)
  : Notification.t :=
  Notification.mk (Notification.id n) (Notification.familyId n)
    (Notification.type n) (Notification.title n) (Notification.message n)
    (f n) (Notification.data n) (Notification.sentAt n).

Definition readdressDb (f : Notification.t -> list Id) (db : Db) : Db :=
  withNotifications db (map (readdress f) (notifications db)).

(** A response with its payload mapped. *)
Definition mapData {A B} (g : A -> B) (r : Response A) : Response B :=
  mkResponse (status r) (success r) (message r) (option_map g (data r)).

Definition readdressList (f : Notification.t -> list Id)
  (d : NotificationController.ListData) : NotificationController.ListData :=
  NotificationController.mkListData
    (map (readdress f) (NotificationController.l_notifications d))
    (NotificationController.l_unreadCount d).

(** The expiry classification in the words of the specification, on calendar
    days: [today] and [expiryDate] are day numbers and [expiryWarningDays]
    is the family's setting. *)
Definition classifySpec (today : Z) (expiryDate : option Z)
  (expiryWarningDays : Z) : InventoryScreen.ExpiryStatus :=
  match expiryDate with
  | None => InventoryScreen.fresh
  | Some d =>
      if (d <? today)%Z then InventoryScreen.expired
      else if (0 <=? d - today)%Z && (d - today <=? expiryWarningDays)%Z
           then InventoryScreen.expiring
           else InventoryScreen.fresh
  end.

(** The instant [ms] milliseconds into calendar day [day]. *)
Definition instant (day ms : Z) : Date :=
  (day * InventoryScreen.MS_PER_DAY + ms)%Z.

Definition optEqb {A} (eqb : A -> A -> bool) (a b : option A) : bool :=
  match a, b with
  | Some x, Some y => eqb x y
  | None, None => true
  | _, _ => false
  end.

(** The updatable fields whose value differs between two versions of a row:
    the set of fields actually changed, in the words of the specification. *)
Definition changedFields (old new : InventoryItem.t) : list string :=
  ((if PrimFloat.Leibniz.eqb (InventoryItem.quantity old) (InventoryItem.quantity new)
    then [] else ["quantity"]) ++
   (if optEqb Z.eqb (InventoryItem.expiryDate old) (InventoryItem.expiryDate new)
    then [] else ["expiryDate"]) ++
   (if InventoryItem.name old =? InventoryItem.name new then [] else ["name"]) ++
   (if InventoryItem.category old =? InventoryItem.category new
    then [] else ["category"]) ++
   (if optEqb String.eqb (InventoryItem.notes old) (InventoryItem.notes new)
    then [] else ["notes"]))%list.

(** The keys a PATCH body provides. *)
Definition provided {A} (v : option A) (key : string) : list string :=
  match v with Some _ => [key] | None => [] end.

Definition providedFields (b : InventoryController.UpdateItemBody) : list string :=
  (provided (InventoryController.u_quantity b) "quantity" ++
   provided (InventoryController.u_expiryDate b) "expiryDate" ++
   provided (InventoryController.u_name b) "name" ++
   provided (InventoryController.u_category b) "category" ++
   provided (InventoryController.u_notes b) "notes")%list.

(** ** Sample data *)

Module Sample.

Definition alice : FamilyMember.t := FamilyMember.mk "m1" "famA" "alice" "owner" true.
Definition bob : FamilyMember.t := FamilyMember.mk "m2" "famB" "bob" "owner" true.
Definition carol : FamilyMember.t := FamilyMember.mk "m3" "famA" "carol" "member" true.
(** A member row that was deactivated. *)
Definition dave : FamilyMember.t := FamilyMember.mk "m4" "famA" "dave" "member" false.

Definition milkA : InventoryItem.t :=
  InventoryItem.mk "i1" "famA" "Milk" 2%float "litres" "dairy" None None None None
    "alice" true 1000%Z 1000%Z.
Definition milkB : InventoryItem.t :=
  InventoryItem.mk "i2" "famB" "MILK" 5%float "litres" "dairy" None None None None
    "bob" true 1000%Z 1000%Z.
Definition eggsA : InventoryItem.t :=
  InventoryItem.mk "i3" "famA" "Eggs" 12%float "pieces" "dairy" None None None None
    "alice" false 1000%Z 2000%Z.

Definition note : Notification.t :=
  Notification.mk "n1" "famA" "custom" "Hello" "Buy milk" ["alice"] None 5000%Z.

Definition db : Db :=
  mkDb [Family.mk "famA" "A" "AAAAAA" "alice"; Family.mk "famB" "B" "BBBBBB" "bob"]
       [alice; bob; carol; dave]
       [milkA; milkB; eggsA]
       [] [] []
       [note]
       [].

Definition addMilk : InventoryController.AddItemBody :=
  InventoryController.mkAddItemBody "milk" 3%float None "dairy" None None None None.

Definition addBread : InventoryController.AddItemBody :=
  InventoryController.mkAddItemBody "Bread" 1%float None "bakery" None None None None.

Definition renameToMilk : InventoryController.UpdateItemBody :=
  InventoryController.mkUpdateItemBody None None (Some "Milk") None None.

Definition oneDozenEggs : OrderController.CreateOrderBody :=
  OrderController.mkCreateOrderBody None
    [OrderController.mkItemInput None "Eggs" 12%float None None] None.

Definition noItems : OrderController.CreateOrderBody :=
  OrderController.mkCreateOrderBody None [] None.

Definition itemIds (n : nat) : Id := String (ascii_of_nat (48 + n)) "".

(** alice creates a family and places an order. *)
Definition session : list Request :=
  [CreateFamily "alice" "A" "AAAAAA" "famA" "m1";
   CreateOrder "alice" oneDozenEggs 100%Z "o1" itemIds].

End Sample.

(** ** Further routes and screens *)

(** *** familyController.ts: the member routes, which also use the user
        table *)

Module User.
Record t := mk {
  id : Id;
  phone : string;
  name : string;
  isVerified : bool;
}.
End User.

Module MemberRoutes.







Record MembersData := mkMembersData {
  members : list FamilyMember.t;
  totalCount : Z;
}.

(** *** GET /:familyId/members *)
Definition getMembers (d : Db) (userId familyId : Id) : Db * Response MembersData :=
  match Prisma.findFirst
          (fun m => (FamilyMember.familyId m =? familyId) &&
                    (FamilyMember.userId m =? userId))
          (familyMembers d) with
  | None => (d, mkResponse 403 false (Some "Access denied") None)
  | Some familyMember =>
      let members :=
        Prisma.findMany
          (fun m => (FamilyMember.familyId m =? familyId) && FamilyMember.isActive m)
          (familyMembers d) in
      (d, mkResponse 200 true None
            (Some (mkMembersData members (Z.of_nat (List.length members)))))
  end.

End MemberRoutes.

(** *** The order controller: the read routes *)

Module OrderQueries.

Record ListQuery := mkListQuery {
  q_status : option string;
  q_merchantId : option string;
  q_limit : option Z;
}.

Record ListData := mkListData {
  l_orders : list OrderController.OrderData;
  l_totalCount : Z;
}.

(** [include: { items }] *)
Definition withItems (d : Db) (o : Order.t) : OrderController.OrderData :=
  OrderController.mkOrderData o
    (Prisma.findMany (fun i => OrderItem.orderId i =? Order.id o) (orderItems d)).

Definition ordersWhere (familyId : Id) (q : ListQuery) (o : Order.t) : bool :=
  (Order.familyId o =? familyId) &&
  (if truthy (q_status q)
   then Order.status o =? match q_status q with Some s => s | None => "" end
   else true) &&
  (if truthy (q_merchantId q)
   then optEqb String.eqb (Order.merchantId o) (q_merchantId q)
   else true).

(** *** GET / *)
Definition getOrders (d : Db) (userId : Id) (q : ListQuery)
  : Db * Response ListData :=
  if negb (optional (isInt 1 (Some 100%Z)) (q_limit q)) then (d, validationError)
  else
    let limit := match q_limit q with Some l => l | None => 20%Z end in
    match findFamilyMember d userId with
    | None => (d, notPartOfFamily)
    | Some familyMember =>
        let orders :=
          paginate 0 limit
            (orderBy (fun a b => (Order.createdAt a <=? Order.createdAt b)%Z) "desc"
               (Prisma.findMany
                  (ordersWhere (FamilyMember.familyId familyMember) q)
                  (orders d))) in
        (d, mkResponse 200 true None
              (Some (mkListData (map (withItems d) orders)
                       (Z.of_nat (List.length orders)))))
    end.

(** *** GET /:orderId *)
Definition getOrder (d : Db) (userId orderId : Id)
  : Db * Response OrderController.OrderData :=
  match findFamilyMember d userId with
  | None => (d, notPartOfFamily)
  | Some familyMember =>
      match Prisma.findFirst
              (fun o => (Order.id o =? orderId) &&
                        (Order.familyId o =? FamilyMember.familyId familyMember))
              (orders d) with
      | None => (d, mkResponse 404 false (Some "Order not found") None)
      | Some order => (d, mkResponse 200 true None (Some (withItems d order)))
      end
  end.

End OrderQueries.

(** *** src/screens/HomeScreen.tsx: the expiry and stock lists *)

Module HomeScreen.

(** [today] is the instant [new Date()] of the call. *)
Definition getExpiringItems (today : Date) (items : list InventoryItem.t)
  : list InventoryItem.t :=
  let twoDaysFromNow := (today + 2 * 24 * 60 * 60 * 1000)%Z in
  filter
    (fun item =>
       match InventoryItem.expiryDate item with
       | Some d => (d <=? twoDaysFromNow)%Z
       | None => false
       end)
    items.

Definition getLowStockItems (items : list InventoryItem.t) : list InventoryItem.t :=
  filter (fun item => (InventoryItem.quantity item <=? 1)%float) items.

Definition getExpiredItems (today : Date) (items : list InventoryItem.t)
  : list InventoryItem.t :=
  filter
    (fun item =>
       match InventoryItem.expiryDate item with
       | Some d => (d <? today)%Z
       | None => false
       end)
    items.

End HomeScreen.

(** *** src/store/slices/notificationsSlice.ts: the reducers of the client
        that hold the listing and its unread count *)

Module NotificationsSlice.

Record Read := mkRead {
  r_userId : Id;
  r_readAt : Date;
}.

(** A notification as the client holds it, with its read receipts. *)
Record ClientNotification := mkClientNotification {
  notification : Notification.t;
  readBy : list Read;
}.

(** [unreadCount] is a JavaScript number that only ever holds an integer;
    it is exact below 2^53. *)
Record State := mkState {
  notifications : list ClientNotification;
  unreadCount : Z;
  isLoading : bool;
  error : option string;
}.

Definition initialState : State := mkState [] 0 false None.

Definition hasId (notificationId : Id) (n : ClientNotification) : bool :=
  Notification.id (notification n) =? notificationId.

(** [notification.readBy.some(read => read.userId === userId)] *)
Definition readByUser (userId : Id) (n : ClientNotification) : bool :=
  existsb (fun read => r_userId read =? userId) (readBy n).

(** [notification.readBy.push({ userId, readAt: new Date() })] *)
Definition pushRead (userId : Id) (now : Date) (n : ClientNotification)
  : ClientNotification :=
  mkClientNotification (notification n) (readBy n ++ [mkRead userId now])%list.

Definition addNotification (state : State) (payload : ClientNotification) : State :=
  mkState (payload :: notifications state) (unreadCount state + 1)
    (isLoading state) (error state).

(** The object that [find] returns is changed in place: the first
    notification of the id. *)
Definition markAsReadLocally (state : State) (notificationId userId : Id)
  (now : Date) : State :=
  match find (hasId notificationId) (notifications state) with
  | Some notification =>
      if negb (readByUser userId notification)
      then mkState
             (fst (Prisma.update (hasId notificationId) (pushRead userId now)
                     (notifications state)))
             (Z.max 0 (unreadCount state - 1))
             (isLoading state) (error state)
      else state
  | None => state
  end.

Definition markAllAsReadLocally (state : State) (userId : Id) (now : Date) : State :=
  mkState
    (map (fun notification =>
            if negb (readByUser userId notification)
            then pushRead userId now notification
            else notification)
       (notifications state))
    0 (isLoading state) (error state).

Definition removeNotificationLocally (state : State) (notificationId : Id) : State :=
  let unreadCount :=
    match find (hasId notificationId) (notifications state) with
    | Some notification =>
        if (List.length (readBy notification) =? 0)%nat
        then Z.max 0 (unreadCount state - 1)
        else unreadCount state
    | None => unreadCount state
    end in
  mkState
    (filter (fun n => negb (hasId notificationId n)) (notifications state))
    unreadCount (isLoading state) (error state).

Definition clearNotifications (state : State) : State :=
  mkState [] 0 (isLoading state) (error state).

(** [fetchNotifications.fulfilled] *)
Definition fetchFulfilled (state : State) (payloadNotifications : list ClientNotification)
  (payloadUnreadCount : Z) : State :=
  mkState payloadNotifications payloadUnreadCount false None.

(** The notifications of the state without a read receipt of the user. *)
Definition unreadOf (userId : Id) (state : State) : Z :=
  Z.of_nat
    (List.length (filter (fun n => negb (readByUser userId n)) (notifications state))).

End NotificationsSlice.

(** ** Vocabulary of the further statements *)

(** Whether the route answers with [success: true]. *)
Definition succeeded (db : Db) (r : Request) : bool :=
  match r with
  | ListItems u q => success (snd (InventoryController.listItems db u q))
  | AddItem u b now newId => success (snd (InventoryController.addItem db u b now newId))
  | UpdateItem u i b now => success (snd (InventoryController.updateItem db u i b now))
  | DeleteItem u i now => success (snd (InventoryController.deleteItem db u i now))
  | CreateFamily u n c f m => success (snd (FamilyController.createFamily db u n c f m))
  | JoinFamily u c m => success (snd (FamilyController.joinFamily db u c m))
  | CreateOrder u b now o i => success (snd (OrderController.createOrder db u b now o i))
  | UpdateOrderStatus u o s now =>
      success (snd (OrderController.updateOrderStatus db u o s now))
  | GetNotifications u q => success (snd (NotificationController.getNotifications db u q))
  | MarkRead u n now => success (snd (NotificationController.markRead db u n now))
  | SendNotification u b now newId =>
      success (snd (NotificationController.sendNotification db u b now newId))
  end.

(** The family and the name up to case: what the duplicate lookup keys on. *)
Definition nameKey (i : InventoryItem.t) : Id * string :=
  (InventoryItem.familyId i, Prisma.lower (InventoryItem.name i)).

(** Among the active items no two have the same family and the same name up
    to case. *)
Definition activeNamesUnique (db : Db) : Prop :=
  NoDup (map nameKey (filter InventoryItem.isActive (inventoryItems db))).

(** No user has two member rows. *)
Definition oneFamilyPerUser (db : Db) : Prop :=
  NoDup (map FamilyMember.userId (familyMembers db)).

(** The primary key of the order table. *)
Definition uniqueOrderIds (db : Db) : Prop :=
  NoDup (map Order.id (orders db)).

(** fresh, expiring, expired in the order an item goes through them. *)
Definition statusRank (s : InventoryScreen.ExpiryStatus) : Z :=
  match s with
  | InventoryScreen.fresh => 0
  | InventoryScreen.expiring => 1
  | InventoryScreen.expired => 2
  end.

(** ** Scenarios of the further statements *)

Module Scenario.

Definition addRice : InventoryController.AddItemBody :=
  InventoryController.mkAddItemBody "Rice" 4%float (Some "kg") "other" None None
    None None.

(** The sample store after alice adds "Bread" and carol adds "Rice": family
    A holds three active items and the soft-deleted "Eggs". *)
Definition pantry : Db :=
  fold_left handle
    [AddItem "alice" Sample.addBread 7000%Z "i4";
     AddItem "carol" addRice 7100%Z "i5"]
    Sample.db.






(** The sample store after alice places an order for eggs. *)
Definition ordered : Db :=
  handle Sample.db (CreateOrder "alice" Sample.oneDozenEggs 100%Z "o1" Sample.itemIds).

Definition eggsOrder : Order.t :=
  Order.mk "o1" "famA" None "pending" None "alice" 100%Z 100%Z None.

(** The sample store where family B keeps a merchant. *)
Definition market : Db :=
  mkDb (families Sample.db) (familyMembers Sample.db) (inventoryItems Sample.db)
    [Merchant.mk "mer1" "famB" "Corner shop" true]
    (orders Sample.db) (orderItems Sample.db) (notifications Sample.db)
    (notificationReads Sample.db).

Definition eggsFromShop : OrderController.CreateOrderBody :=
  OrderController.mkCreateOrderBody (Some "mer1")
    [OrderController.mkItemInput None "Eggs" 12%float None None] None.

Definition hello : NotificationController.SendBody :=
  NotificationController.mkSendBody "custom" "Hello" "Dinner is ready" None None.

(** The client after a fetch of two notifications, the second read by bob
    alone. *)
Definition inbox : NotificationsSlice.State :=
  NotificationsSlice.mkState
    [NotificationsSlice.mkClientNotification Sample.note [];
     NotificationsSlice.mkClientNotification
       (Notification.mk "n2" "famA" "custom" "Bye" "Out of milk" [] None 6000%Z)
       [NotificationsSlice.mkRead "bob" 6500%Z]]
    2 false None.

End Scenario.

(** * Properties *)

(** ** The store operations *)

Section TableFacts.
Context {Row : Type}.
Implicit Types (rows before after : list Row) (e : Row).

Lemma findFirst_split (p : Row -> bool) rows e :
  Prisma.findFirst p rows = Some e ->
  exists before after,
    rows = (before ++ e :: after)%list /\ p e = true /\
    forall y, In y before -> p y = false.
Proof.
  unfold Prisma.findFirst.
  induction rows as [|r rows IH]; simpl; [discriminate|].
  destruct (p r) eqn:Hr.
  - intros [= <-]. exists [], rows. repeat split; auto. intros y [].
  - intros H. destruct (IH H) as (before & after & -> & He & Hb).
    exists (r :: before), after. repeat split; auto.
    intros y [<-|Hy]; auto.
Qed.

Lemma findFirst_none (p : Row -> bool) rows :
  Prisma.findFirst p rows = None <-> forall y, In y rows -> p y = false.
Proof.
  unfold Prisma.findFirst. split.
  - intros H y Hy. exact (find_none p rows H y Hy).
  - induction rows as [|r rows IH]; simpl; auto.
    intros H. rewrite (H r (or_introl eq_refl)). apply IH. auto.
Qed.

Lemma findFirst_exists (p : Row -> bool) rows :
  (exists y, In y rows /\ p y = true) ->
  exists e, Prisma.findFirst p rows = Some e.
Proof.
  intros (y & Hy & Hp).
  destruct (Prisma.findFirst p rows) as [e|] eqn:H; [eauto|].
  rewrite findFirst_none in H. rewrite (H y Hy) in Hp. discriminate.
Qed.

Lemma update_first (key : Row -> bool) (f : Row -> Row) before e after :
  (forall y, In y before -> key y = false) -> key e = true ->
  Prisma.update key f (before ++ e :: after)
  = ((before ++ f e :: after)%list, Some (f e)).
Proof.
  intros Hb He. induction before as [|r before IH]; simpl.
  - now rewrite He.
  - rewrite (Hb r (or_introl eq_refl)).
    rewrite IH; auto. intros y Hy. apply Hb. now right.
Qed.

Lemma update_none (key : Row -> bool) (f : Row -> Row) rows :
  (forall y, In y rows -> key y = false) ->
  Prisma.update key f rows = (rows, None).
Proof.
  induction rows as [|r rows IH]; simpl; intros H; auto.
  rewrite (H r (or_introl eq_refl)), IH; auto.
Qed.

(** Under a unique key, the row found is the row updated. *)
Lemma unique_others (rid : Row -> Id) before e after :
  NoDup (map rid (before ++ e :: after)) ->
  forall y, In y (before ++ after) -> (rid y =? rid e) = false.
Proof.
  rewrite map_app. simpl. intros Hnd y Hy.
  apply NoDup_remove_2 in Hnd.
  apply String.eqb_neq. intros Heq. apply Hnd.
  rewrite <- Heq, <- map_app. now apply in_map.
Qed.

Lemma update_unique (rid : Row -> Id) (f : Row -> Row) before e after :
  NoDup (map rid (before ++ e :: after)) ->
  Prisma.update (fun r => rid r =? rid e) f (before ++ e :: after)
  = ((before ++ f e :: after)%list, Some (f e)).
Proof.
  intros Hnd. apply update_first.
  - intros y Hy. apply (unique_others rid before e after Hnd).
    apply in_or_app. now left.
  - apply String.eqb_refl.
Qed.

End TableFacts.

(** ** C1, C2: merge on add *)

Lemma duplicateWhere_spec familyId name i :
  InventoryController.duplicateWhere familyId name i = true
  <-> activeNamed familyId name i.
Proof.
  unfold InventoryController.duplicateWhere, activeNamed,
    Prisma.equalsInsensitive.
  rewrite !andb_true_iff, !String.eqb_eq. tauto.
Qed.


Lemma sample_uniqueItemIds : uniqueItemIds Sample.db.
Proof.
  unfold uniqueItemIds. simpl.
  repeat constructor; simpl; intuition discriminate.
Qed.


(** "Milk" then "milk": one active row whose quantity is the sum. *)
Example milk_then_milk :
  let body name q :=
    InventoryController.mkAddItemBody name q None "dairy" None None None None in
  let db0 := withFamilyMembers emptyDb [Sample.alice] in
  let '(db1, r1) := InventoryController.addItem db0 "alice" (body "Milk" 2%float) 10%Z "i1" in
  let '(db2, r2) := InventoryController.addItem db1 "alice" (body "milk" 3%float) 20%Z "i2" in
  inventoryItems db2 =
    [InventoryItem.mk "i1" "famA" "Milk" 5%float "pieces" "dairy" None None None
       None "alice" true 10%Z 20%Z] /\
  option_map InventoryController.isDuplicate (data r2) = Some true /\
  option_map InventoryController.previousQuantity (data r2) = Some 2%float.
Proof. vm_compute. repeat split. Qed.

(** C2. An add by a member of family A leaves the inventory rows of every
    other family B as they were, whatever their names. *)
Theorem addItem_other_families_unchanged db userId b now newId m B :
  uniqueItemIds db ->
  findFamilyMember db userId = Some m ->
  B <> FamilyMember.familyId m ->
  itemsOf B (fst (InventoryController.addItem db userId b now newId))
  = itemsOf B db.
Proof.
  intros Hnd Hm HB. unfold InventoryController.addItem.
  destruct (InventoryController.validateAddItem b); [|reflexivity].
  cbn [negb]. rewrite Hm.
  destruct (Prisma.findFirst _ _) as [e|] eqn:He.
  - destruct (findFirst_split _ _ _ He) as (before & after & Hrows & Hp & _).
    apply duplicateWhere_spec in Hp. destruct Hp as (Hfam & _).
    unfold uniqueItemIds in Hnd. rewrite Hrows in Hnd.
    rewrite Hrows, (update_unique InventoryItem.id _ before e after Hnd).
    unfold itemsOf. simpl. rewrite Hrows, !filter_app. simpl.
    rewrite Hfam.
    assert (HAB : (FamilyMember.familyId m =? B) = false).
    { apply String.eqb_neq. congruence. }
    now rewrite HAB.
  - unfold itemsOf, Prisma.create. simpl. rewrite filter_app. simpl.
    assert (HAB : (FamilyMember.familyId m =? B) = false).
    { apply String.eqb_neq. congruence. }
    rewrite HAB. apply app_nil_r.
Qed.

(** The theorem at the sample store: alice (family A) adds "milk" while
    family B holds an active "MILK". *)
Lemma addItem_other_families_unchanged_witness :
  itemsOf "famB"
    (fst (InventoryController.addItem Sample.db "alice" Sample.addMilk 7000%Z "i9"))
  = [Sample.milkB].
Proof.
  rewrite (addItem_other_families_unchanged Sample.db "alice" Sample.addMilk
             7000%Z "i9" Sample.alice "famB" sample_uniqueItemIds eq_refl).
  - reflexivity.
  - discriminate.
Defined.

(** ** C3: one family per user *)

Lemma findFamilyMember_some db userId :
  (exists m, In m (familyMembers db) /\ FamilyMember.userId m = userId) ->
  exists m, findFamilyMember db userId = Some m.
Proof.
  intros (m & Hin & Hu). apply findFirst_exists.
  exists m. split; auto. now apply String.eqb_eq.
Qed.

Lemma findFamilyMember_none db userId :
  (forall m, In m (familyMembers db) -> FamilyMember.userId m <> userId) ->
  findFamilyMember db userId = None.
Proof.
  intros H. apply findFirst_none. intros m Hm.
  apply String.eqb_neq. auto.
Qed.

(** C3, as stated, at the sample store: dave has no active member row (his
    only row is deactivated), and both calls still answer that he already
    belongs to a family. *)
Lemma already_member_counterexample :
  hasActiveMembership Sample.db "dave" = false /\
  snd (FamilyController.createFamily Sample.db "dave" "Daves" "DDDDDD" "famD" "m9")
    = FamilyController.alreadyMember /\
  snd (FamilyController.joinFamily Sample.db "dave" "BBBBBB" "m9")
    = FamilyController.alreadyMember.
Proof. repeat split. Qed.

(** C3, amended.  The check is for any member row of the user, active or
    not.  With such a row, every createFamily and joinFamily call with a
    valid body answers 400 "User already belongs to a family" whatever the
    family targeted, and no call changes the store; without one, neither
    call gives that answer. *)
Theorem already_member_any_row db userId :
  ((exists m, In m (familyMembers db) /\ FamilyMember.userId m = userId) ->
   (forall name code newFamilyId newMemberId,
      isLength 1 100 name = true ->
      FamilyController.createFamily db userId name code newFamilyId newMemberId
      = (db, FamilyController.alreadyMember)) /\
   (forall code newMemberId,
      isLength 6 6 code = true ->
      FamilyController.joinFamily db userId code newMemberId
      = (db, FamilyController.alreadyMember)) /\
   (forall name code newFamilyId newMemberId,
      fst (FamilyController.createFamily db userId name code newFamilyId newMemberId)
      = db) /\
   (forall code newMemberId,
      fst (FamilyController.joinFamily db userId code newMemberId) = db))
  /\
  ((forall m, In m (familyMembers db) -> FamilyMember.userId m <> userId) ->
   (forall name code newFamilyId newMemberId,
      snd (FamilyController.createFamily db userId name code newFamilyId newMemberId)
      <> FamilyController.alreadyMember) /\
   (forall code newMemberId,
      snd (FamilyController.joinFamily db userId code newMemberId)
      <> FamilyController.alreadyMember)).
Proof.
  unfold FamilyController.createFamily, FamilyController.joinFamily. split.
  - intros Hex. destruct (findFamilyMember_some db userId Hex) as [m Hm].
    rewrite Hm. repeat split; intros.
    + now rewrite H.
    + now rewrite H.
    + now destruct (isLength 1 100 name).
    + now destruct (isLength 6 6 code).
  - intros Hno. rewrite (findFamilyMember_none db userId Hno).
    split; intros.
    + destruct (isLength 1 100 name); discriminate.
    + destruct (isLength 6 6 code); [|discriminate].
      cbn [negb]. destruct (Prisma.findFirst _ _); discriminate.
Qed.

(** The theorem at the sample store, for dave and his deactivated row. *)
Lemma already_member_any_row_witness :
  FamilyController.createFamily Sample.db "dave" "Daves" "DDDDDD" "famD" "m9"
  = (Sample.db, FamilyController.alreadyMember) /\
  FamilyController.joinFamily Sample.db "dave" "BBBBBB" "m9"
  = (Sample.db, FamilyController.alreadyMember).
Proof.
  destruct (proj1 (already_member_any_row Sample.db "dave")) as (Hc & Hj & _).
  - exists Sample.dave. split; [simpl; tauto | reflexivity].
  - split; [apply Hc | apply Hj]; reflexivity.
Defined.

(** ** C4: an order has items *)

Lemma update_map (Row A : Type) (g : Row -> A) (key : Row -> bool)
  (f : Row -> Row) (rows : list Row) :
  (forall r, g (f r) = g r) ->
  map g (fst (Prisma.update key f rows)) = map g rows.
Proof.
  intros Hg. induction rows as [|r rows IH]; simpl; auto.
  destruct (key r); simpl.
  - now rewrite Hg.
  - destruct (Prisma.update key f rows) as [rows' res]. simpl in *.
    now rewrite IH.
Qed.

Lemma update_fst_snd (Row : Type) (key : Row -> bool) (f : Row -> Row)
  (rows : list Row) :
  Prisma.update key f rows
  = (fst (Prisma.update key f rows), snd (Prisma.update key f rows)).
Proof. now destruct (Prisma.update key f rows). Qed.

Lemma newOrderItems_orderId newItemId orderId inputs n i :
  In i (OrderController.newOrderItems newItemId n orderId inputs) ->
  OrderItem.orderId i = orderId.
Proof.
  revert n. induction inputs as [|x inputs IH]; simpl; intros n [].
  - now subst.
  - eauto.
Qed.

Lemma newOrderItems_length newItemId orderId inputs n :
  List.length (OrderController.newOrderItems newItemId n orderId inputs)
  = List.length inputs.
Proof.
  revert n. induction inputs as [|x inputs IH]; simpl; intros; auto.
Qed.

Lemma newOrderItems_names newItemId orderId inputs n :
  map OrderItem.name (OrderController.newOrderItems newItemId n orderId inputs)
  = map OrderController.i_name inputs.
Proof.
  revert n. induction inputs as [|x inputs IH]; simpl; intros; auto.
  now rewrite IH.
Qed.

(** What a createOrder call does to the store. *)
Lemma createOrder_cases db userId b now newOrderId newItemId :
  let res := OrderController.createOrder db userId b now newOrderId newItemId in
  (status (snd res) <> 201%Z /\ fst res = db) \/
  (exists m,
     findFamilyMember db userId = Some m /\
     OrderController.validateCreateOrder b = true /\
     status (snd res) = 201%Z /\
     orders (fst res)
     = (orders db
        ++ [OrderController.newOrder newOrderId (FamilyMember.familyId m) userId b now])%list /\
     orderItems (fst res)
     = (orderItems db
        ++ OrderController.newOrderItems newItemId 0 newOrderId
             (OrderController.b_items b))%list).
Proof.
  unfold OrderController.createOrder.
  destruct (OrderController.validateCreateOrder b) eqn:Hv; cbn [negb];
    [|left; split; [discriminate|reflexivity]].
  destruct (findFamilyMember db userId) as [m|] eqn:Hm;
    [|left; split; [discriminate|reflexivity]].
  match goal with
  | |- context [if negb ?c then _ else _] => destruct c
  end; cbn [negb].
  - right. exists m. simpl. auto.
  - left. split; [discriminate|reflexivity].
Qed.

Lemma createOrder_keeps_invariant db userId b now newOrderId newItemId :
  ordersHaveItems db ->
  ordersHaveItems
    (fst (OrderController.createOrder db userId b now newOrderId newItemId)).
Proof.
  intros Hinv.
  destruct (createOrder_cases db userId b now newOrderId newItemId)
    as [[_ ->]|(m & _ & Hv & _ & Ho & Hi)]; auto.
  intros o. rewrite Ho, Hi. intros Hin.
  apply in_app_or in Hin. destruct Hin as [Hin|[<-|[]]].
  - destruct (Hinv o Hin) as (i & Hi' & Hid).
    exists i. split; auto. apply in_or_app. now left.
  - unfold OrderController.validateCreateOrder in Hv.
    apply andb_true_iff in Hv. destruct Hv as [Hv _].
    apply andb_true_iff in Hv. destruct Hv as [Hv _].
    unfold OrderController.isArrayMin1 in Hv.
    destruct (OrderController.b_items b) as [|x xs]; [discriminate|].
    simpl. eexists. split.
    + apply in_or_app. right. left. reflexivity.
    + reflexivity.
Qed.

Lemma updateOrderStatus_keeps_invariant db userId orderId status now :
  ordersHaveItems db ->
  ordersHaveItems
    (fst (OrderController.updateOrderStatus db userId orderId status now)).
Proof.
  intros Hinv. unfold OrderController.updateOrderStatus.
  destruct (isIn _ status); cbn [negb]; auto.
  destruct (findFamilyMember db userId); auto.
  destruct (Prisma.findFirst _ _); auto.
  rewrite update_fst_snd.
  destruct (snd (Prisma.update _ _ _)); auto.
  intros o Ho. simpl in *.
  assert (Hids : In (Order.id o) (map Order.id (orders db))).
  { rewrite <- (update_map _ _ Order.id (fun o => Order.id o =? orderId)
                  (OrderController.setStatus status now) (orders db));
      [now apply in_map | reflexivity]. }
  apply in_map_iff in Hids. destruct Hids as (o0 & Hid & Hin0).
  destruct (Hinv o0 Hin0) as (i & Hi & Hoi). exists i. split; auto. congruence.
Qed.

Ltac case_handler :=
  repeat match goal with
    | |- context [match ?x with _ => _ end] => destruct x
    end.

Lemma handle_keeps_invariant db r :
  ordersHaveItems db -> ordersHaveItems (handle db r).
Proof.
  intros Hinv. destruct r; simpl.
  - unfold InventoryController.listItems. case_handler; exact Hinv.
  - unfold InventoryController.addItem. case_handler; exact Hinv.
  - unfold InventoryController.updateItem. case_handler; exact Hinv.
  - unfold InventoryController.deleteItem. case_handler; exact Hinv.
  - unfold FamilyController.createFamily. case_handler; exact Hinv.
  - unfold FamilyController.joinFamily. case_handler; exact Hinv.
  - now apply createOrder_keeps_invariant.
  - now apply updateOrderStatus_keeps_invariant.
  - unfold NotificationController.getNotifications. case_handler; exact Hinv.
  - unfold NotificationController.markRead. case_handler; exact Hinv.
  - unfold NotificationController.sendNotification,
      NotificationController.createNotification.
    destruct (NotificationController.validateSend b); cbn [negb];
      [|exact Hinv].
    destruct (findFamilyMember db userId); exact Hinv.
Qed.

(** C4. A createOrder call with an empty items array answers with the
    validation error and leaves the store as it was; no store the handlers
    can reach holds an order without an item row; and a createOrder call
    either answers 201 and appends the order together with one item row per
    requested item, each pointing to the order and carrying the requested
    name, or answers otherwise and leaves the store as it was. *)
Theorem createOrder_never_without_items :
  (forall db userId b now newOrderId newItemId,
     OrderController.b_items b = [] ->
     OrderController.createOrder db userId b now newOrderId newItemId
     = (db, validationError)) /\
  (forall db, reachable db -> ordersHaveItems db) /\
  (forall db userId b now newOrderId newItemId,
     let res := OrderController.createOrder db userId b now newOrderId newItemId in
     (status (snd res) <> 201%Z /\ fst res = db) \/
     (status (snd res) = 201%Z /\
      OrderController.b_items b <> [] /\
      exists order items,
        Order.id order = newOrderId /\
        orders (fst res) = (orders db ++ [order])%list /\
        orderItems (fst res) = (orderItems db ++ items)%list /\
        List.length items = List.length (OrderController.b_items b) /\
        map OrderItem.name items
        = map OrderController.i_name (OrderController.b_items b) /\
        forall i, In i items -> OrderItem.orderId i = newOrderId)).
Proof.
  split; [|split].
  - intros db userId b now newOrderId newItemId Hb.
    unfold OrderController.createOrder, OrderController.validateCreateOrder.
    now rewrite Hb.
  - intros db Hr. induction Hr as [|db r Hr IH|db db' Hr IH Ho Hi].
    + intros o [].
    + now apply handle_keeps_invariant.
    + unfold ordersHaveItems. rewrite Ho, Hi. exact IH.
  - intros db userId b now newOrderId newItemId res.
    destruct (createOrder_cases db userId b now newOrderId newItemId)
      as [H|(m & _ & Hv & Hs & Ho & Hi)]; [left; exact H|].
    right. split; [exact Hs|]. split.
    + intros Hb. unfold OrderController.validateCreateOrder in Hv.
      rewrite Hb in Hv. discriminate.
    + eexists _, _. split; [|split; [exact Ho|split; [exact Hi|]]].
      * reflexivity.
      * split; [apply newOrderItems_length|].
        split; [apply newOrderItems_names|].
        intros i. apply newOrderItems_orderId.
Qed.

Lemma reachable_session db requests :
  reachable db -> reachable (fold_left handle requests db).
Proof.
  revert db. induction requests as [|r requests IH]; simpl; intros db H; auto.
  apply IH. now constructor.
Qed.

(** The theorem after the sample session: the store holds one order, it has
    its item row, and a further order without items is turned down. *)
Lemma createOrder_never_without_items_witness :
  let db := fold_left handle Sample.session emptyDb in
  List.length (orders db) = 1%nat /\
  ordersHaveItems db /\
  OrderController.createOrder db "alice" Sample.noItems 200%Z "o2" Sample.itemIds
  = (db, validationError).
Proof.
  intros db. destruct createOrder_never_without_items as (Hempty & Hinv & _).
  split; [reflexivity|]. split.
  - apply Hinv. apply reachable_session. constructor.
  - now apply Hempty.
Defined.

(** ** C5, C6: read tracking *)

Lemma count_zero (Row : Type) (p : Row -> bool) (rows : list Row) :
  Prisma.count p rows = 0%Z -> forall y, In y rows -> p y = false.
Proof.
  unfold Prisma.count. intros H y Hy.
  destruct (p y) eqn:Hp; auto.
  assert (Hin : In y (filter p rows)) by (apply filter_In; auto).
  destruct (filter p rows); [destruct Hin | simpl in H; lia].
Qed.

Lemma count_all_false (Row : Type) (p : Row -> bool) (rows : list Row) :
  (forall y, In y rows -> p y = false) -> Prisma.count p rows = 0%Z.
Proof.
  unfold Prisma.count. intros H.
  induction rows as [|r rows IH]; simpl; auto.
  rewrite (H r (or_introl eq_refl)). apply IH. intros y Hy. apply H. now right.
Qed.

Lemma count_app (Row : Type) (p : Row -> bool) (rows1 rows2 : list Row) :
  Prisma.count p (rows1 ++ rows2)
  = (Prisma.count p rows1 + Prisma.count p rows2)%Z.
Proof. unfold Prisma.count. rewrite filter_app, length_app. lia. Qed.

(** The code's relation filter and the specification's wording agree. *)
Lemma noReadBy_spec db userId n :
  NotificationController.noReadBy db userId n
  = negb (existsb
            (fun r =>
               (NotificationRead.notificationId r =? Notification.id n) &&
               (NotificationRead.userId r =? userId))
            (notificationReads db)).
Proof.
  unfold NotificationController.noReadBy, Prisma.none, Prisma.findMany.
  f_equal. induction (notificationReads db) as [|r rows IH]; simpl; auto.
  destruct (NotificationRead.notificationId r =? Notification.id n); simpl;
    now rewrite IH.
Qed.

Lemma unreadCount_spec db familyId userId :
  NotificationController.unreadCount db familyId userId
  = unreadCountSpec db familyId userId.
Proof.
  unfold NotificationController.unreadCount, unreadCountSpec, Prisma.count.
  do 2 f_equal. apply filter_ext. intros n. now rewrite noReadBy_spec.
Qed.

Lemma noReadBy_zero db userId n :
  readRows db (Notification.id n) userId = 0%Z ->
  NotificationController.noReadBy db userId n = true.
Proof.
  intros H. rewrite noReadBy_spec. apply negb_true_iff.
  apply not_true_is_false. intros Hex.
  apply existsb_exists in Hex. destruct Hex as (r & Hr & Hk).
  pose proof (count_zero _ _ _ H r Hr) as Hz.
  unfold NotificationController.readKey in Hz. congruence.
Qed.

(** Dropping one row of a table with a unique key lowers a count by one. *)
Lemma count_without (Row : Type) (rid : Row -> Id) (p : Row -> bool)
  (rows : list Row) (n : Row) :
  NoDup (map rid rows) -> In n rows -> p n = true ->
  Prisma.count (fun x => p x && negb (rid n =? rid x)) rows
  = (Prisma.count p rows - 1)%Z.
Proof.
  intros Hnd Hin Hp.
  destruct (in_split n rows Hin) as (before & after & ->).
  assert (Hoth : forall y, In y (before ++ after) -> (rid n =? rid y) = false).
  { intros y Hy. rewrite String.eqb_sym.
    exact (unique_others rid before n after Hnd y Hy). }
  assert (Hsame : forall l, (forall y, In y l -> In y (before ++ after)) ->
            Prisma.count (fun x => p x && negb (rid n =? rid x)) l
            = Prisma.count p l).
  { intros l Hl. unfold Prisma.count. do 2 f_equal.
    apply filter_ext_in. intros y Hy.
    rewrite (Hoth y (Hl y Hy)). simpl. apply andb_true_r. }
  change (before ++ n :: after)%list with (before ++ [n] ++ after)%list.
  rewrite !count_app.
  rewrite (Hsame before), (Hsame after);
    try (intros y Hy; apply in_or_app; auto).
  unfold Prisma.count at 2 5. cbn [filter].
  rewrite Hp, String.eqb_refl. cbn [negb andb List.length].
  change (Z.of_nat 0) with 0%Z. change (Z.of_nat 1) with 1%Z. lia.
Qed.

(** A mark-read call that reaches the upsert. *)
Lemma markRead_ok db userId now m n :
  findFamilyMember db userId = Some m ->
  In n (notifications db) ->
  Notification.familyId n = FamilyMember.familyId m ->
  NotificationController.markRead db userId (Notification.id n) now
  = (withNotificationReads db
       (NotificationController.upsertRead (Notification.id n) userId now
          (notificationReads db)),
     mkResponse 200 true (Some "Notification marked as read") None).
Proof.
  intros Hm Hin Hfam. unfold NotificationController.markRead. rewrite Hm.
  destruct (findFirst_exists
              (fun x => (Notification.id x =? Notification.id n) &&
                        (Notification.familyId x =? FamilyMember.familyId m))
              (notifications db)) as [n' Hn'].
  { exists n. split; auto. rewrite Hfam, !String.eqb_refl. reflexivity. }
  now rewrite Hn'.
Qed.

Lemma upsertRead_new notificationId userId now rows :
  Prisma.count (NotificationController.readKey notificationId userId) rows = 0%Z ->
  NotificationController.upsertRead notificationId userId now rows
  = (rows ++ [NotificationRead.mk notificationId userId now])%list.
Proof.
  intros H. unfold NotificationController.upsertRead.
  assert (Hf : Prisma.findFirst
                 (NotificationController.readKey notificationId userId) rows = None).
  { apply findFirst_none. now apply count_zero. }
  now rewrite Hf.
Qed.

Lemma upsertRead_again notificationId userId t1 t2 rows :
  Prisma.count (NotificationController.readKey notificationId userId) rows = 0%Z ->
  NotificationController.upsertRead notificationId userId t2
    (rows ++ [NotificationRead.mk notificationId userId t1])
  = (rows ++ [NotificationRead.mk notificationId userId t2])%list.
Proof.
  intros H. unfold NotificationController.upsertRead.
  assert (Hk : NotificationController.readKey notificationId userId
                 (NotificationRead.mk notificationId userId t1) = true).
  { unfold NotificationController.readKey. simpl. now rewrite !String.eqb_refl. }
  destruct (findFirst_exists
              (NotificationController.readKey notificationId userId)
              (rows ++ [NotificationRead.mk notificationId userId t1]))
    as [r Hr].
  { eexists. split; [apply in_or_app; right; left; reflexivity | exact Hk]. }
  rewrite Hr.
  rewrite (update_first _ _ rows (NotificationRead.mk notificationId userId t1) []);
    auto.
  now apply count_zero.
Qed.

(** Reads of one user do not show in the relation filter of another. *)
Lemma upsertRead_other_user db userId userId' notificationId now n :
  userId' <> userId ->
  NotificationController.noReadBy
    (withNotificationReads db
       (NotificationController.upsertRead notificationId userId now
          (notificationReads db)))
    userId' n
  = NotificationController.noReadBy db userId' n.
Proof.
  intros Hne. rewrite !noReadBy_spec. simpl. f_equal.
  unfold NotificationController.upsertRead.
  destruct (Prisma.findFirst _ _).
  - induction (notificationReads db) as [|r rows IH]; simpl; auto.
    destruct (NotificationController.readKey notificationId userId r) eqn:Hk;
      simpl; auto.
    destruct (Prisma.update _ _ rows) as [rows' res]. simpl in *.
    now rewrite IH.
  - unfold Prisma.create. rewrite existsb_app. simpl.
    assert (Hu : (userId =? userId') = false)
      by (apply String.eqb_neq; congruence).
    rewrite Hu, andb_false_r. simpl. apply orb_false_r.
Qed.

(** C5. For a member [userId] of family [familyId]: the unread count the
    listing answers is the number of the family's notifications without a
    read row of the user, computed from the rows of the store at the call;
    marking read a notification of the family that had no read row of the
    user lowers the count by exactly one; and a mark-read by any other user
    leaves the count of this user as it was. *)
Theorem unreadCount_tracks_reads db userId m :
  findFamilyMember db userId = Some m ->
  uniqueNotificationIds db ->
  (forall q,
     optional (isInt 1 (Some 100%Z)) (NotificationController.q_limit q) = true ->
     fst (NotificationController.getNotifications db userId q) = db /\
     option_map NotificationController.l_unreadCount
       (data (snd (NotificationController.getNotifications db userId q)))
     = Some (unreadCountSpec db (FamilyMember.familyId m) userId)) /\
  (forall n now,
     In n (notifications db) ->
     Notification.familyId n = FamilyMember.familyId m ->
     readRows db (Notification.id n) userId = 0%Z ->
     unreadCountSpec
       (fst (NotificationController.markRead db userId (Notification.id n) now))
       (FamilyMember.familyId m) userId
     = (unreadCountSpec db (FamilyMember.familyId m) userId - 1)%Z) /\
  (forall other notificationId now,
     other <> userId ->
     unreadCountSpec
       (fst (NotificationController.markRead db other notificationId now))
       (FamilyMember.familyId m) userId
     = unreadCountSpec db (FamilyMember.familyId m) userId).
Proof.
  intros Hm Hnd. split; [|split].
  - intros q Hq. unfold NotificationController.getNotifications.
    rewrite Hq, Hm. simpl. now rewrite unreadCount_spec.
  - intros n now Hin Hfam Hzero.
    rewrite (markRead_ok db userId now m n Hm Hin Hfam). simpl.
    rewrite <- !unreadCount_spec.
    unfold NotificationController.unreadCount.
    rewrite <- (count_without _ Notification.id
                  (fun x => (Notification.familyId x =? FamilyMember.familyId m) &&
                            NotificationController.noReadBy db userId x)
                  (notifications db) n Hnd Hin).
    + simpl. unfold Prisma.count. do 2 f_equal.
      apply filter_ext. intros x. rewrite <- andb_assoc. f_equal.
      rewrite !noReadBy_spec. simpl.
      rewrite (upsertRead_new _ _ _ _ Hzero).
      rewrite existsb_app, negb_orb. simpl.
      now rewrite String.eqb_refl, andb_true_r, orb_false_r.
    + rewrite Hfam, String.eqb_refl. simpl. now apply noReadBy_zero.
  - intros other notificationId now Hne.
    rewrite <- !unreadCount_spec.
    unfold NotificationController.markRead.
    destruct (findFamilyMember db other); [|reflexivity].
    destruct (Prisma.findFirst _ _); [|reflexivity].
    simpl. unfold NotificationController.unreadCount, Prisma.count. simpl.
    do 2 f_equal. apply filter_ext. intros x. f_equal.
    apply upsertRead_other_user. congruence.
Qed.

Lemma sample_uniqueNotificationIds : uniqueNotificationIds Sample.db.
Proof.
  unfold uniqueNotificationIds. simpl.
  repeat constructor; simpl; intuition discriminate.
Qed.

(** The theorem at the sample store: alice has one unread notification; her
    own mark-read brings it to zero, carol's leaves it at one. *)
Lemma unreadCount_tracks_reads_witness :
  unreadCountSpec Sample.db "famA" "alice" = 1%Z /\
  unreadCountSpec
    (fst (NotificationController.markRead Sample.db "alice" "n1" 9000%Z))
    "famA" "alice" = 0%Z /\
  unreadCountSpec
    (fst (NotificationController.markRead Sample.db "carol" "n1" 9000%Z))
    "famA" "alice" = 1%Z.
Proof.
  destruct (unreadCount_tracks_reads Sample.db "alice" Sample.alice eq_refl
              sample_uniqueNotificationIds) as (_ & Hdec & Hoth).
  split; [reflexivity|split].
  - transitivity (unreadCountSpec Sample.db "famA" "alice" - 1)%Z.
    + exact (Hdec Sample.note 9000%Z (or_introl eq_refl) eq_refl eq_refl).
    + reflexivity.
  - transitivity (unreadCountSpec Sample.db "famA" "alice").
    + apply (Hoth "carol" "n1" 9000%Z). discriminate.
    + reflexivity.
Defined.

(** C6. For a member and a notification of the member's family that the
    member has not read: the first mark-read answers 200 and stores exactly
    one read row for the pair, after the rows that were there; a second
    mark-read answers 200 as well, sets the [readAt] of that row to the time
    of the second call, and the pair still has exactly one row. *)
Theorem markRead_idempotent db userId m n t1 t2 :
  findFamilyMember db userId = Some m ->
  In n (notifications db) ->
  Notification.familyId n = FamilyMember.familyId m ->
  readRows db (Notification.id n) userId = 0%Z ->
  let first := NotificationController.markRead db userId (Notification.id n) t1 in
  let second :=
    NotificationController.markRead (fst first) userId (Notification.id n) t2 in
  snd first = mkResponse 200 true (Some "Notification marked as read") None /\
  notificationReads (fst first)
  = (notificationReads db
     ++ [NotificationRead.mk (Notification.id n) userId t1])%list /\
  readRows (fst first) (Notification.id n) userId = 1%Z /\
  snd second = mkResponse 200 true (Some "Notification marked as read") None /\
  notificationReads (fst second)
  = (notificationReads db
     ++ [NotificationRead.mk (Notification.id n) userId t2])%list /\
  readRows (fst second) (Notification.id n) userId = 1%Z.
Proof.
  intros Hm Hin Hfam Hzero first second.
  assert (Hone : forall t,
            Prisma.count (NotificationController.readKey (Notification.id n) userId)
              (notificationReads db
               ++ [NotificationRead.mk (Notification.id n) userId t])
            = 1%Z).
  { intros t. rewrite count_app. unfold readRows in Hzero. rewrite Hzero.
    unfold Prisma.count, NotificationController.readKey. simpl.
    now rewrite !String.eqb_refl. }
  assert (H1 : first
               = (withNotificationReads db
                    (notificationReads db
                     ++ [NotificationRead.mk (Notification.id n) userId t1])%list,
                  mkResponse 200 true (Some "Notification marked as read") None)).
  { unfold first. rewrite (markRead_ok db userId t1 m n Hm Hin Hfam).
    now rewrite (upsertRead_new _ _ _ _ Hzero). }
  assert (H2 : second
               = (withNotificationReads db
                    (notificationReads db
                     ++ [NotificationRead.mk (Notification.id n) userId t2])%list,
                  mkResponse 200 true (Some "Notification marked as read") None)).
  { unfold second. rewrite H1. cbn [fst].
    rewrite (markRead_ok _ userId t2 m n); auto. cbn [notificationReads withNotificationReads].
    now rewrite (upsertRead_again _ _ _ _ _ Hzero). }
  rewrite H1, H2. unfold readRows. simpl.
  repeat split; auto.
Qed.

(** The theorem at the sample store: alice marks the notification read
    twice. *)
Lemma markRead_idempotent_witness :
  let first := NotificationController.markRead Sample.db "alice" "n1" 9000%Z in
  let second := NotificationController.markRead (fst first) "alice" "n1" 9500%Z in
  notificationReads (fst first) = [NotificationRead.mk "n1" "alice" 9000%Z] /\
  notificationReads (fst second) = [NotificationRead.mk "n1" "alice" 9500%Z] /\
  status (snd second) = 200%Z.
Proof.
  destruct (markRead_idempotent Sample.db "alice" Sample.alice Sample.note
              9000%Z 9500%Z eq_refl (or_introl eq_refl) eq_refl eq_refl)
    as (_ & H1 & _ & H2 & H3 & _).
  intros first second. split; [|split].
  - exact H1.
  - exact H3.
  - exact (f_equal status H2).
Defined.

(** ** C7: soft delete *)

Section OrderByFacts.
Context {Row : Type}.

Lemma insertBy_In (le : Row -> Row -> bool) x a rows :
  In x (insertBy le a rows) <-> x = a \/ In x rows.
Proof.
  induction rows as [|r rows IH]; simpl.
  - intuition.
  - destruct (le a r); simpl; [intuition|]. rewrite IH. intuition.
Qed.

Lemma sortBy_In (le : Row -> Row -> bool) x rows :
  In x (sortBy le rows) <-> In x rows.
Proof.
  induction rows as [|r rows IH]; simpl; [tauto|].
  rewrite insertBy_In, IH. intuition.
Qed.

Lemma orderBy_In (le : Row -> Row -> bool) sortOrder x rows :
  In x (orderBy le sortOrder rows) <-> In x rows.
Proof. unfold orderBy. destruct (sortOrder =? "desc"); apply sortBy_In. Qed.

Lemma paginate_In skip take x (rows : list Row) :
  In x (paginate skip take rows) -> In x rows.
Proof.
  unfold paginate. intros H.
  rewrite <- (firstn_skipn (Z.to_nat skip) rows). apply in_or_app. right.
  rewrite <- (firstn_skipn (Z.to_nat take) (skipn (Z.to_nat skip) rows)).
  apply in_or_app. now left.
Qed.

End OrderByFacts.

Lemma unique_row db i j :
  uniqueItemIds db ->
  In i (inventoryItems db) -> In j (inventoryItems db) ->
  InventoryItem.id j = InventoryItem.id i -> j = i.
Proof.
  unfold uniqueItemIds. intros Hnd Hi Hj Hid.
  destruct (in_split i _ Hi) as (before & after & Hrows).
  rewrite Hrows in Hnd, Hj.
  apply in_app_or in Hj. destruct Hj as [Hj|[Hj|Hj]]; auto.
  - pose proof (unique_others InventoryItem.id before i after Hnd j
                  (in_or_app _ _ _ (or_introl Hj))) as Hne.
    apply String.eqb_neq in Hne. contradiction.
  - pose proof (unique_others InventoryItem.id before i after Hnd j
                  (in_or_app _ _ _ (or_intror Hj))) as Hne.
    apply String.eqb_neq in Hne. contradiction.
Qed.

(** No row of the family is active under the id: the existence check of the
    update and delete handlers finds nothing. *)
Lemma ownedActive_none db itemId familyId :
  (forall j, In j (inventoryItems db) -> InventoryItem.id j = itemId ->
             InventoryItem.isActive j = false) ->
  Prisma.findFirst (InventoryController.ownedActive itemId familyId)
    (inventoryItems db) = None.
Proof.
  intros H. apply findFirst_none. intros j Hj.
  unfold InventoryController.ownedActive.
  destruct (InventoryItem.id j =? itemId) eqn:Hid; auto.
  apply String.eqb_eq in Hid. rewrite (H j Hj Hid). apply andb_false_r.
Qed.

Lemma updateItem_not_found db userId itemId b now :
  (forall j, In j (inventoryItems db) -> InventoryItem.id j = itemId ->
             InventoryItem.isActive j = false) ->
  InventoryController.updateItem db userId itemId b now
  = if negb (InventoryController.validateUpdateItem b) then (db, validationError)
    else match findFamilyMember db userId with
         | None => (db, notPartOfFamily)
         | Some _ => (db, InventoryController.itemNotFound)
         end.
Proof.
  intros H. unfold InventoryController.updateItem.
  destruct (negb _); auto.
  destruct (findFamilyMember db userId); auto.
  now rewrite (ownedActive_none db itemId _ H).
Qed.

Lemma deleteItem_not_found db userId itemId now :
  (forall j, In j (inventoryItems db) -> InventoryItem.id j = itemId ->
             InventoryItem.isActive j = false) ->
  InventoryController.deleteItem db userId itemId now
  = match findFamilyMember db userId with
    | None => (db, notPartOfFamily)
    | Some _ => (db, InventoryController.itemNotFound)
    end.
Proof.
  intros H. unfold InventoryController.deleteItem.
  destruct (findFamilyMember db userId); auto.
  now rewrite (ownedActive_none db itemId _ H).
Qed.

(** C7. A listing holds only rows of the store that are active, so no
    soft-deleted item; on the id of a soft-deleted item the update and the
    delete handler answer and leave the store exactly as on an id that no
    row has, which for a member with a valid body is 404 "Item not found";
    and a delete that succeeds keeps every row and only sets [isActive] to
    false and [updatedAt] on the row of the id. *)
Theorem soft_deleted_items_are_gone :
  (forall db userId q d i,
     data (snd (InventoryController.listItems db userId q)) = Some d ->
     In i (InventoryController.items d) ->
     In i (inventoryItems db) /\ InventoryItem.isActive i = true) /\
  (forall db userId b now i ghost,
     uniqueItemIds db ->
     In i (inventoryItems db) -> InventoryItem.isActive i = false ->
     (forall j, In j (inventoryItems db) -> InventoryItem.id j <> ghost) ->
     InventoryController.updateItem db userId (InventoryItem.id i) b now
     = InventoryController.updateItem db userId ghost b now /\
     InventoryController.deleteItem db userId (InventoryItem.id i) now
     = InventoryController.deleteItem db userId ghost now /\
     (forall m, findFamilyMember db userId = Some m ->
        (InventoryController.validateUpdateItem b = true ->
         InventoryController.updateItem db userId (InventoryItem.id i) b now
         = (db, InventoryController.itemNotFound)) /\
        InventoryController.deleteItem db userId (InventoryItem.id i) now
        = (db, InventoryController.itemNotFound))) /\
  (forall db userId itemId now,
     uniqueItemIds db ->
     let res := InventoryController.deleteItem db userId itemId now in
     (status (snd res) <> 200%Z /\ fst res = db) \/
     (status (snd res) = 200%Z /\
      exists before e after,
        inventoryItems db = (before ++ e :: after)%list /\
        InventoryItem.id e = itemId /\
        InventoryItem.isActive e = true /\
        fst res =
          withInventoryItems db
            (before ++
             InventoryItem.mk (InventoryItem.id e) (InventoryItem.familyId e)
               (InventoryItem.name e) (InventoryItem.quantity e)
               (InventoryItem.unit e) (InventoryItem.category e)
               (InventoryItem.barcode e) (InventoryItem.expiryDate e)
               (InventoryItem.imageUrl e) (InventoryItem.notes e)
               (InventoryItem.addedBy e) false (InventoryItem.createdAt e) now
             :: after)%list)).
Proof.
  split; [|split].
  - intros db userId q d i. unfold InventoryController.listItems.
    destruct (negb _); [discriminate|].
    destruct (findFamilyMember db userId) as [m|]; [|discriminate].
    simpl. intros [= <-]. simpl. intros Hin.
    apply paginate_In, orderBy_In, filter_In in Hin.
    destruct Hin as [Hin Hw]. split; auto.
    unfold InventoryController.listWhere in Hw.
    rewrite !andb_true_iff in Hw. tauto.
  - intros db userId b now i ghost Hnd Hi Hinactive Hghost.
    assert (Hsoft : forall j, In j (inventoryItems db) ->
                      InventoryItem.id j = InventoryItem.id i ->
                      InventoryItem.isActive j = false).
    { intros j Hj Hid. now rewrite (unique_row db i j Hnd Hi Hj Hid). }
    assert (Habsent : forall j, In j (inventoryItems db) ->
                        InventoryItem.id j = ghost ->
                        InventoryItem.isActive j = false).
    { intros j Hj Hid. now elim (Hghost j Hj). }
    rewrite (updateItem_not_found db userId _ b now Hsoft),
      (updateItem_not_found db userId _ b now Habsent),
      (deleteItem_not_found db userId _ now Hsoft),
      (deleteItem_not_found db userId _ now Habsent).
    split; [reflexivity|]. split; [reflexivity|].
    intros m Hm. rewrite Hm. split.
    + intros Hv. now rewrite Hv.
    + reflexivity.
  - intros db userId itemId now Hnd res. subst res.
    unfold InventoryController.deleteItem.
    destruct (findFamilyMember db userId) as [m|];
      [|left; split; [discriminate|reflexivity]].
    destruct (Prisma.findFirst _ _) as [e|] eqn:He;
      [|left; split; [discriminate|reflexivity]].
    destruct (findFirst_split _ _ _ He) as (before & after & Hrows & Hp & _).
    unfold InventoryController.ownedActive in Hp.
    rewrite !andb_true_iff, !String.eqb_eq in Hp.
    destruct Hp as [[Hid Hfam] Hact].
    unfold uniqueItemIds in Hnd. rewrite Hrows in Hnd |- *.
    rewrite <- Hid.
    rewrite (update_unique InventoryItem.id _ before e after Hnd).
    right. split; [reflexivity|].
    exists before, e, after. repeat split; auto.
Qed.

(** The theorem at the sample store: "Eggs" is soft-deleted there; alice
    soft-deletes "Milk". *)
Lemma soft_deleted_items_are_gone_witness :
  InventoryController.updateItem Sample.db "alice" "i3" Sample.renameToMilk 8000%Z
  = InventoryController.updateItem Sample.db "alice" "ghost" Sample.renameToMilk 8000%Z /\
  InventoryController.deleteItem Sample.db "alice" "i3" 8000%Z
  = (Sample.db, InventoryController.itemNotFound) /\
  status (snd (InventoryController.deleteItem Sample.db "alice" "i1" 8000%Z)) = 200%Z.
Proof.
  destruct soft_deleted_items_are_gone as (_ & Hgone & Hdel).
  destruct (Hgone Sample.db "alice" Sample.renameToMilk 8000%Z Sample.eggsA "ghost"
              sample_uniqueItemIds)
    as (Hu & _ & Hnf).
  - simpl. tauto.
  - reflexivity.
  - intros j [<-|[<-|[<-|[]]]]; discriminate.
  - split; [exact Hu|]. split.
    + exact (proj2 (Hnf Sample.alice eq_refl)).
    + destruct (Hdel Sample.db "alice" "i1" 8000%Z sample_uniqueItemIds)
        as [[Hne _]|[Hok _]]; [|exact Hok].
      now elim Hne.
Defined.

(** ** C8: expiry classification *)

Lemma MS_PER_DAY_pos : (0 < InventoryScreen.MS_PER_DAY)%Z.
Proof. reflexivity. Qed.

(** The quotient rounded up is the least integer whose multiple reaches the
    dividend. *)
Lemma ceilDiv_le a b k :
  (0 < b)%Z -> (InventoryScreen.ceilDiv a b <= k <-> a <= k * b)%Z.
Proof.
  intros Hb. unfold InventoryScreen.ceilDiv.
  pose proof (Z.div_mod (- a) b ltac:(lia)) as Hdm.
  pose proof (Z.mod_pos_bound (- a) b Hb) as Hmod.
  split; intros H; nia.
Qed.

(** The classification on instants: the day count is the difference in
    milliseconds over one day, rounded up. *)
Lemma getExpiryStatus_instants today item d :
  InventoryItem.expiryDate item = Some d ->
  InventoryScreen.getExpiryStatus today item =
    if (d - today <=? - InventoryScreen.MS_PER_DAY)%Z then InventoryScreen.expired
    else if (d - today <=? 2 * InventoryScreen.MS_PER_DAY)%Z
         then InventoryScreen.expiring
         else InventoryScreen.fresh.
Proof.
  intros Hd. unfold InventoryScreen.getExpiryStatus, InventoryScreen.daysUntilExpiry.
  rewrite Hd.
  pose proof (ceilDiv_le (d - today) _ (-1) MS_PER_DAY_pos) as H1.
  pose proof (ceilDiv_le (d - today) _ 2 MS_PER_DAY_pos) as H2.
  destruct (Z.ltb_spec (InventoryScreen.ceilDiv (d - today) InventoryScreen.MS_PER_DAY) 0);
    destruct (Z.leb_spec (d - today) (- InventoryScreen.MS_PER_DAY));
    try reflexivity; try lia.
  destruct (Z.leb_spec (InventoryScreen.ceilDiv (d - today) InventoryScreen.MS_PER_DAY) 2);
    destruct (Z.leb_spec (d - today) (2 * InventoryScreen.MS_PER_DAY));
    try reflexivity; lia.
Qed.

(** From an instant of calendar day [day] to the start of calendar day [e],
    the day count is [e - day]. *)
Lemma daysUntilExpiry_days day ms e :
  (0 <= ms < InventoryScreen.MS_PER_DAY)%Z ->
  InventoryScreen.daysUntilExpiry (instant day ms) (instant e 0) = (e - day)%Z.
Proof.
  intros Hms. unfold InventoryScreen.daysUntilExpiry, InventoryScreen.ceilDiv, instant.
  replace (- (e * InventoryScreen.MS_PER_DAY + 0
              - (day * InventoryScreen.MS_PER_DAY + ms)))%Z
    with ((day - e) * InventoryScreen.MS_PER_DAY + ms)%Z by lia.
  rewrite Z.div_add_l by (pose proof MS_PER_DAY_pos; lia).
  rewrite (Z.div_small ms) by lia. lia.
Qed.

(** C8, as stated, for a family whose expiryWarningDays is 5 and an item
    that expires in 4 days: the specification's classification is expiring,
    the screen's is fresh. *)
Lemma expiry_window_counterexample :
  let item :=
    InventoryItem.mk "i1" "famA" "Milk" 1%float "litres" "dairy" None
      (Some (instant 104 0)) None None "alice" true 0%Z 0%Z in
  classifySpec 100 (Some 104%Z) 5 = InventoryScreen.expiring /\
  InventoryScreen.getExpiryStatus (instant 100 0) item = InventoryScreen.fresh.
Proof. split; reflexivity. Qed.

(** C8, amended.  The classification depends on the instant of the call and
    the expiry date of the item alone, with a warning window fixed at two
    days: without an expiry date the item is fresh; with an expiry date at
    the start of calendar day [e], at any instant of calendar day [day], it
    is what the specification's classification gives for a window of 2:
    expired when [e < day], expiring when [0 <= e - day <= 2], fresh
    otherwise. *)
Theorem getExpiryStatus_fixed_window today item :
  (InventoryItem.expiryDate item = None ->
   InventoryScreen.getExpiryStatus today item = InventoryScreen.fresh) /\
  (forall day ms e,
     (0 <= ms < InventoryScreen.MS_PER_DAY)%Z ->
     today = instant day ms ->
     InventoryItem.expiryDate item = Some (instant e 0) ->
     InventoryScreen.getExpiryStatus today item = classifySpec day (Some e) 2).
Proof.
  split.
  - intros H. unfold InventoryScreen.getExpiryStatus. now rewrite H.
  - intros day ms e Hms -> He.
    unfold InventoryScreen.getExpiryStatus, classifySpec. rewrite He.
    rewrite (daysUntilExpiry_days day ms e Hms).
    destruct (Z.ltb_spec (e - day) 0); destruct (Z.ltb_spec e day);
      try reflexivity; try lia.
    destruct (Z.leb_spec 0 (e - day)); try lia. reflexivity.
Qed.

(** The theorem at noon of day 100: an item that expires tomorrow is
    expiring, one that expired yesterday is expired. *)
Lemma getExpiryStatus_fixed_window_witness :
  let item d :=
    InventoryItem.mk "i1" "famA" "Milk" 1%float "litres" "dairy" None
      (Some (instant d 0)) None None "alice" true 0%Z 0%Z in
  InventoryScreen.getExpiryStatus (instant 100 43200000) (item 101%Z)
  = InventoryScreen.expiring /\
  InventoryScreen.getExpiryStatus (instant 100 43200000) (item 99%Z)
  = InventoryScreen.expired.
Proof.
  intros item. split.
  - rewrite (proj2 (getExpiryStatus_fixed_window (instant 100 43200000) (item 101%Z))
               100%Z 43200000%Z 101%Z); [reflexivity | | reflexivity | reflexivity].
    unfold InventoryScreen.MS_PER_DAY. lia.
  - rewrite (proj2 (getExpiryStatus_fixed_window (instant 100 43200000) (item 99%Z))
               100%Z 43200000%Z 99%Z); [reflexivity | | reflexivity | reflexivity].
    unfold InventoryScreen.MS_PER_DAY. lia.
Defined.

(** ** C9: partial update *)

Lemma applyUpdate_fields b now e :
  InventoryController.applyUpdate (InventoryController.buildUpdateData b) now e
  = InventoryItem.mk (InventoryItem.id e) (InventoryItem.familyId e)
      (match InventoryController.u_name b with
       | Some v => v | None => InventoryItem.name e end)
      (match InventoryController.u_quantity b with
       | Some v => v | None => InventoryItem.quantity e end)
      (InventoryItem.unit e)
      (match InventoryController.u_category b with
       | Some v => v | None => InventoryItem.category e end)
      (InventoryItem.barcode e)
      (match InventoryController.u_expiryDate b with
       | Some v => v | None => InventoryItem.expiryDate e end)
      (InventoryItem.imageUrl e)
      (match InventoryController.u_notes b with
       | Some v => Some v | None => InventoryItem.notes e end)
      (InventoryItem.addedBy e) (InventoryItem.isActive e)
      (InventoryItem.createdAt e) now.
Proof. destruct b as [[q|] [d|] [n|] [c|] [nt|]]; reflexivity. Qed.

Lemma updateData_keys b :
  map InventoryController.keyOf (InventoryController.buildUpdateData b)
  = providedFields b.
Proof. destruct b as [[q|] [d|] [n|] [c|] [nt|]]; reflexivity. Qed.

(** C9, as stated, at the sample store: alice sends the name "Milk" for the
    item that is already named "Milk".  The response lists "name" as
    updated, while no updatable field of the row has changed. *)
Lemma updated_fields_counterexample :
  let res :=
    InventoryController.updateItem Sample.db "alice" "i1" Sample.renameToMilk 8000%Z in
  option_map InventoryController.updated (data (snd res)) = Some ["name"] /\
  option_map (fun d => changedFields Sample.milkA (InventoryController.updatedItem d))
    (data (snd res)) = Some [].
Proof. split; reflexivity. Qed.

(** C9, amended.  A valid update by a member of family [fid]: when no row
    has the id, belongs to the family and is active, the answer is 404 "Item
    not found" and the store stays as it was; otherwise the row of the id
    takes the value of each of quantity, expiryDate, name, category and notes
    that the body provides and keeps the others, [updatedAt] is set, all other
    fields and rows stay, and the response lists the fields the body
    provides, in that order, whether or not their values differ from the
    stored ones. *)
Theorem updateItem_applies_provided db userId itemId b now m :
  uniqueItemIds db ->
  InventoryController.validateUpdateItem b = true ->
  findFamilyMember db userId = Some m ->
  ((forall j, In j (inventoryItems db) ->
      ~ (InventoryItem.id j = itemId /\
         InventoryItem.familyId j = FamilyMember.familyId m /\
         InventoryItem.isActive j = true)) ->
   InventoryController.updateItem db userId itemId b now
   = (db, InventoryController.itemNotFound)) /\
  (forall e,
     In e (inventoryItems db) ->
     InventoryItem.id e = itemId ->
     InventoryItem.familyId e = FamilyMember.familyId m ->
     InventoryItem.isActive e = true ->
     exists before after,
       inventoryItems db = (before ++ e :: after)%list /\
       InventoryController.updateItem db userId itemId b now =
         let e' :=
           InventoryItem.mk (InventoryItem.id e) (InventoryItem.familyId e)
             (match InventoryController.u_name b with
              | Some v => v | None => InventoryItem.name e end)
             (match InventoryController.u_quantity b with
              | Some v => v | None => InventoryItem.quantity e end)
             (InventoryItem.unit e)
             (match InventoryController.u_category b with
              | Some v => v | None => InventoryItem.category e end)
             (InventoryItem.barcode e)
             (match InventoryController.u_expiryDate b with
              | Some v => v | None => InventoryItem.expiryDate e end)
             (InventoryItem.imageUrl e)
             (match InventoryController.u_notes b with
              | Some v => Some v | None => InventoryItem.notes e end)
             (InventoryItem.addedBy e) (InventoryItem.isActive e)
             (InventoryItem.createdAt e) now in
         (withInventoryItems db (before ++ e' :: after)%list,
          mkResponse 200 true (Some "Item updated successfully")
            (Some (InventoryController.mkUpdateItemData e' (providedFields b))))).
Proof.
  intros Hnd Hv Hm. unfold InventoryController.updateItem.
  rewrite Hv, Hm. cbn [negb]. split.
  - intros Hnone.
    assert (Hf : Prisma.findFirst
                   (InventoryController.ownedActive itemId (FamilyMember.familyId m))
                   (inventoryItems db) = None).
    { apply findFirst_none. intros j Hj.
      destruct (InventoryController.ownedActive _ _ j) eqn:Ho; auto.
      unfold InventoryController.ownedActive in Ho.
      rewrite !andb_true_iff, !String.eqb_eq in Ho.
      elim (Hnone j Hj). tauto. }
    now rewrite Hf.
  - intros e Hin Hid Hfam Hact.
    destruct (findFirst_exists
                (InventoryController.ownedActive itemId (FamilyMember.familyId m))
                (inventoryItems db)) as [e0 He0].
    { exists e. split; auto. unfold InventoryController.ownedActive.
      now rewrite Hid, Hfam, Hact, !String.eqb_refl. }
    rewrite He0.
    destruct (findFirst_split _ _ _ He0) as (before & after & Hrows & Hp & _).
    unfold InventoryController.ownedActive in Hp.
    rewrite !andb_true_iff, !String.eqb_eq in Hp.
    destruct Hp as [[Hid0 _] _].
    assert (He : e0 = e).
    { apply (unique_row db e e0 Hnd Hin); [|congruence].
      rewrite Hrows. apply in_or_app. right. now left. }
    subst e0. exists before, after. split; [exact Hrows|].
    unfold uniqueItemIds in Hnd. rewrite Hrows in Hnd |- *.
    rewrite <- Hid.
    rewrite (update_unique InventoryItem.id _ before e after Hnd).
    now rewrite applyUpdate_fields, updateData_keys.
Qed.

(** The theorem at the sample store: alice renames "Milk" to "Milk". *)
Lemma updateItem_applies_provided_witness :
  exists before after,
    inventoryItems Sample.db = (before ++ Sample.milkA :: after)%list /\
    InventoryController.updateItem Sample.db "alice" "i1" Sample.renameToMilk 8000%Z =
      let e' :=
        InventoryItem.mk "i1" "famA" "Milk" 2%float "litres" "dairy" None None
          None None "alice" true 1000%Z 8000%Z in
      (withInventoryItems Sample.db (before ++ e' :: after)%list,
       mkResponse 200 true (Some "Item updated successfully")
         (Some (InventoryController.mkUpdateItemData e' ["name"]))).
Proof.
  exact (proj2 (updateItem_applies_provided Sample.db "alice" "i1"
                  Sample.renameToMilk 8000%Z Sample.alice
                  sample_uniqueItemIds eq_refl eq_refl)
           Sample.milkA (or_introl eq_refl) eq_refl eq_refl eq_refl).
Defined.

(** ** C10: the recipient list is addressing only *)

Section MapFacts.
Context {Row : Type}.
Variable g : Row -> Row.

Lemma findFirst_map (p : Row -> bool) rows :
  (forall r, p (g r) = p r) ->
  Prisma.findFirst p (map g rows) = option_map g (Prisma.findFirst p rows).
Proof.
  intros Hp. unfold Prisma.findFirst.
  induction rows as [|r rows IH]; simpl; auto.
  rewrite Hp. now destruct (p r).
Qed.

Lemma filter_map_commute (p q : Row -> bool) rows :
  (forall r, p (g r) = q r) ->
  filter p (map g rows) = map g (filter q rows).
Proof.
  intros Hp. induction rows as [|r rows IH]; simpl; auto.
  rewrite Hp. destruct (q r); simpl; now rewrite IH.
Qed.

Lemma insertBy_map (le : Row -> Row -> bool) x rows :
  (forall a b, le (g a) (g b) = le a b) ->
  insertBy le (g x) (map g rows) = map g (insertBy le x rows).
Proof.
  intros Hle. induction rows as [|r rows IH]; simpl; auto.
  rewrite Hle. destruct (le x r); simpl; now rewrite ?IH.
Qed.

Lemma sortBy_map (le : Row -> Row -> bool) rows :
  (forall a b, le (g a) (g b) = le a b) ->
  sortBy le (map g rows) = map g (sortBy le rows).
Proof.
  intros Hle. induction rows as [|r rows IH]; simpl; auto.
  now rewrite IH, insertBy_map.
Qed.

Lemma orderBy_map (le : Row -> Row -> bool) sortOrder rows :
  (forall a b, le (g a) (g b) = le a b) ->
  orderBy le sortOrder (map g rows) = map g (orderBy le sortOrder rows).
Proof.
  intros Hle. unfold orderBy.
  destruct (sortOrder =? "desc"); apply sortBy_map; auto.
Qed.

Lemma paginate_map skip take rows :
  paginate skip take (map g rows) = map g (paginate skip take rows).
Proof. unfold paginate. now rewrite skipn_map, firstn_map. Qed.

End MapFacts.

Lemma noReadBy_readdress f db userId n :
  NotificationController.noReadBy (readdressDb f db) userId (readdress f n)
  = NotificationController.noReadBy db userId n.
Proof. reflexivity. Qed.

Lemma unreadCount_readdress f db familyId userId :
  NotificationController.unreadCount (readdressDb f db) familyId userId
  = NotificationController.unreadCount db familyId userId.
Proof.
  unfold NotificationController.unreadCount, Prisma.count.
  cbn [notifications readdressDb withNotifications].
  rewrite (filter_map_commute (readdress f) _
             (fun n => (Notification.familyId n =? familyId) &&
                       NotificationController.noReadBy db userId n)).
  - now rewrite length_map.
  - reflexivity.
Qed.

(** C10. Replacing the recipient list of every notification by any other
    changes neither the answer of a mark-read call nor the read rows it
    stores, neither the unread count nor which notifications a listing
    returns and in which order; and for a member of the family of a
    notification who is not among its recipients, mark-read answers 200 and,
    as long as the member has no read row for it, the notification is among
    those the unread count counts. *)
Theorem recipients_not_consulted :
  (forall f db userId notificationId now,
     NotificationController.markRead (readdressDb f db) userId notificationId now
     = (readdressDb f
          (fst (NotificationController.markRead db userId notificationId now)),
        snd (NotificationController.markRead db userId notificationId now))) /\
  (forall f db familyId userId,
     NotificationController.unreadCount (readdressDb f db) familyId userId
     = NotificationController.unreadCount db familyId userId) /\
  (forall f db userId q,
     NotificationController.getNotifications (readdressDb f db) userId q
     = (readdressDb f db,
        mapData (readdressList f)
          (snd (NotificationController.getNotifications db userId q)))) /\
  (forall db userId m n now,
     findFamilyMember db userId = Some m ->
     In n (notifications db) ->
     Notification.familyId n = FamilyMember.familyId m ->
     ~ In userId (Notification.recipients n) ->
     status (snd (NotificationController.markRead db userId (Notification.id n) now))
     = 200%Z /\
     (readRows db (Notification.id n) userId = 0%Z ->
      In n (Prisma.findMany
              (fun x => (Notification.familyId x =? FamilyMember.familyId m) &&
                        NotificationController.noReadBy db userId x)
              (notifications db)) /\
      (1 <= NotificationController.unreadCount db (FamilyMember.familyId m) userId)%Z)).
Proof.
  split; [|split; [|split]].
  - intros f db userId notificationId now.
    unfold NotificationController.markRead.
    change (findFamilyMember (readdressDb f db) userId)
      with (findFamilyMember db userId).
    destruct (findFamilyMember db userId) as [m|]; [|reflexivity].
    cbn [notifications readdressDb withNotifications].
    rewrite findFirst_map by reflexivity.
    destruct (Prisma.findFirst _ (notifications db)); reflexivity.
  - intros. apply unreadCount_readdress.
  - intros f db userId q. unfold NotificationController.getNotifications.
    destruct (negb _); [reflexivity|].
    change (findFamilyMember (readdressDb f db) userId)
      with (findFamilyMember db userId).
    destruct (findFamilyMember db userId) as [m|]; [|reflexivity].
    rewrite unreadCount_readdress.
    cbn [notifications readdressDb withNotifications].
    unfold Prisma.findMany.
    rewrite (filter_map_commute (readdress f) _
               (fun n => (Notification.familyId n =? FamilyMember.familyId m) &&
                         (if truthy (NotificationController.q_type q)
                          then Notification.type n =?
                               match NotificationController.q_type q with
                               | Some t => t | None => "" end
                          else true))) by reflexivity.
    rewrite orderBy_map by reflexivity.
    rewrite paginate_map. reflexivity.
  - intros db userId m n now Hm Hin Hfam _.
    rewrite (markRead_ok db userId now m n Hm Hin Hfam).
    split; [reflexivity|].
    intros Hzero.
    assert (Hcounted :
              In n (Prisma.findMany
                      (fun x => (Notification.familyId x =? FamilyMember.familyId m) &&
                                NotificationController.noReadBy db userId x)
                      (notifications db))).
    { apply filter_In. split; auto.
      rewrite Hfam, String.eqb_refl. simpl. now apply noReadBy_zero. }
    split; [exact Hcounted|].
    unfold NotificationController.unreadCount, Prisma.count.
    unfold Prisma.findMany in Hcounted.
    destruct (filter _ (notifications db)); [destruct Hcounted|].
    simpl. lia.
Qed.

(** The theorem at the sample store: carol is a member of family A and is
    not among the recipients of its notification. *)
Lemma recipients_not_consulted_witness :
  status (snd (NotificationController.markRead Sample.db "carol" "n1" 9000%Z))
  = 200%Z /\
  (1 <= NotificationController.unreadCount Sample.db "famA" "carol")%Z.
Proof.
  destruct recipients_not_consulted as (_ & _ & _ & H).
  destruct (H Sample.db "carol" Sample.carol Sample.note 9000%Z eq_refl
              (or_introl eq_refl) eq_refl) as [Hok Hcount].
  - simpl. intros [Heq|[]]. discriminate.
  - split; [exact Hok|]. exact (proj2 (Hcount eq_refl)).
Defined.

(** * Further properties *)

(** ** Failed requests *)

Ltac case_result H :=
  repeat match type of H with
    | context [match ?x with _ => _ end] => destruct x; simpl in H
    end.

(** X1. A request that is answered with [success: false], whatever the
    reason (validation, no family, not found, already a member, a failed
    update), leaves every table of the store as it was. *)
Theorem failed_request_writes_nothing db r :
  succeeded db r = false -> handle db r = db.
Proof.
  destruct r; simpl; intros H.
  - unfold InventoryController.listItems in *. case_result H; reflexivity.
  - unfold InventoryController.addItem in *.
    case_result H; try reflexivity; discriminate.
  - unfold InventoryController.updateItem in *.
    case_result H; try reflexivity; discriminate.
  - unfold InventoryController.deleteItem in *.
    case_result H; try reflexivity; discriminate.
  - unfold FamilyController.createFamily in *.
    case_result H; try reflexivity; discriminate.
  - unfold FamilyController.joinFamily in *.
    case_result H; try reflexivity; discriminate.
  - unfold OrderController.createOrder in *.
    case_result H; try reflexivity; discriminate.
  - unfold OrderController.updateOrderStatus in *.
    case_result H; try reflexivity; discriminate.
  - unfold NotificationController.getNotifications in *.
    case_result H; reflexivity.
  - unfold NotificationController.markRead in *.
    case_result H; try reflexivity; discriminate.
  - unfold NotificationController.sendNotification,
      NotificationController.createNotification in *.
    case_result H; try reflexivity; discriminate.
Qed.

(** The theorem at the sample store: bob asks to delete an item of family
    A. *)
Lemma failed_request_writes_nothing_witness :
  handle Sample.db (DeleteItem "bob" "i1" 8000%Z) = Sample.db.
Proof.
  apply (failed_request_writes_nothing Sample.db (DeleteItem "bob" "i1" 8000%Z)).
  reflexivity.
Defined.

(** ** Listing the inventory *)

Section OrderByLength.
Context {Row : Type}.




Lemma paginate_length skip take (rows : list Row) :
  (0 <= skip)%Z -> (0 <= take)%Z ->
  Z.of_nat (List.length (paginate skip take rows))
  = Z.max 0 (Z.min take (Z.of_nat (List.length rows) - skip)).
Proof.
  intros Hs Ht. unfold paginate. rewrite length_firstn, length_skipn. lia.
Qed.

End OrderByLength.







(** ** Names, ids and families under the inventory writes *)


(** The existence check of the update and delete routes followed by the
    update on the id. *)
Lemma owned_update db itemId familyId (f : InventoryItem.t -> InventoryItem.t) e0 :
  uniqueItemIds db ->
  Prisma.findFirst (InventoryController.ownedActive itemId familyId)
    (inventoryItems db) = Some e0 ->
  exists before after,
    inventoryItems db = (before ++ e0 :: after)%list /\
    InventoryItem.id e0 = itemId /\
    InventoryItem.familyId e0 = familyId /\
    InventoryItem.isActive e0 = true /\
    Prisma.update (fun i => InventoryItem.id i =? itemId) f (inventoryItems db)
    = ((before ++ f e0 :: after)%list, Some (f e0)).
Proof.
  intros Hnd He0.
  destruct (findFirst_split _ _ _ He0) as (before & after & Hrows & Hp & _).
  unfold InventoryController.ownedActive in Hp.
  rewrite !andb_true_iff, !String.eqb_eq in Hp. destruct Hp as [[Hid Hfam] Hact].
  exists before, after. repeat split; auto.
  unfold uniqueItemIds in Hnd. rewrite Hrows in Hnd |- *. rewrite <- Hid.
  apply (update_unique InventoryItem.id f before e0 after Hnd).
Qed.

Lemma owned_found db itemId familyId e :
  uniqueItemIds db -> In e (inventoryItems db) ->
  InventoryItem.id e = itemId -> InventoryItem.familyId e = familyId ->
  InventoryItem.isActive e = true ->
  Prisma.findFirst (InventoryController.ownedActive itemId familyId)
    (inventoryItems db) = Some e.
Proof.
  intros Hnd Hin Hid Hfam Hact.
  destruct (findFirst_exists (InventoryController.ownedActive itemId familyId)
              (inventoryItems db)) as [e0 He0].
  { exists e. split; auto. unfold InventoryController.ownedActive.
    now rewrite Hid, Hfam, Hact, !String.eqb_refl. }
  rewrite He0. f_equal.
  destruct (owned_update db itemId familyId (fun i => i) e0 Hnd He0)
    as (before & after & Hrows & Hid0 & _).
  apply (unique_row db e e0 Hnd Hin); [|congruence].
  rewrite Hrows. apply in_or_app. right. now left.
Qed.






(** X5. The update route does not look for duplicates: renaming an active
    item to the name of another active item of the same family is answered
    200, and afterwards two active rows of the family have the same name. *)
Theorem updateItem_rename_unchecked db userId m e1 e2 now :
  uniqueItemIds db ->
  findFamilyMember db userId = Some m ->
  In e1 (inventoryItems db) -> In e2 (inventoryItems db) ->
  InventoryItem.id e1 <> InventoryItem.id e2 ->
  InventoryItem.familyId e1 = FamilyMember.familyId m ->
  InventoryItem.familyId e2 = FamilyMember.familyId m ->
  InventoryItem.isActive e1 = true -> InventoryItem.isActive e2 = true ->
  isLength 1 200 (InventoryItem.name e1) = true ->
  let res :=
    InventoryController.updateItem db userId (InventoryItem.id e2)
      (InventoryController.mkUpdateItemBody None None
         (Some (InventoryItem.name e1)) None None) now in
  status (snd res) = 200%Z /\ ~ activeNamesUnique (fst res).
Proof.
  intros Hnd Hm Hin1 Hin2 Hne Hf1 Hf2 Ha1 Ha2 Hlen res. subst res.
  unfold InventoryController.updateItem, InventoryController.validateUpdateItem.
  cbn [InventoryController.u_quantity InventoryController.u_expiryDate
       InventoryController.u_name optional andb].
  rewrite Hlen, Hm. cbn [negb].
  pose proof (owned_found db _ _ e2 Hnd Hin2 eq_refl Hf2 Ha2) as He2.
  rewrite He2.
  destruct (owned_update db _ _
              (InventoryController.applyUpdate
                 (InventoryController.buildUpdateData
                    (InventoryController.mkUpdateItemBody None None
                       (Some (InventoryItem.name e1)) None None)) now)
              e2 Hnd He2) as (before & after & Hrows & _ & _ & _ & Hupd).
  rewrite Hupd. split; [reflexivity|].
  unfold activeNamesUnique. cbn [fst inventoryItems withInventoryItems].
  rewrite filter_app, map_app. simpl. rewrite Ha2. simpl.
  intros Hdup. apply NoDup_remove_2 in Hdup. apply Hdup.
  assert (Hin : In e1 (before ++ after)).
  { rewrite Hrows in Hin1. apply in_app_or in Hin1.
    destruct Hin1 as [H|[H|H]]; [apply in_or_app; now left | | apply in_or_app; now right].
    subst. now elim Hne. }
  rewrite <- map_app, <- filter_app.
  replace (nameKey _) with (nameKey e1).
  - apply in_map, filter_In. auto.
  - unfold nameKey. simpl. now rewrite Hf1, Hf2.
Qed.

(** The theorem at the pantry: alice renames "Bread" to "Milk". *)
Lemma updateItem_rename_unchecked_witness :
  let res :=
    InventoryController.updateItem Scenario.pantry "alice" "i4"
      Sample.renameToMilk 9000%Z in
  status (snd res) = 200%Z /\ ~ activeNamesUnique (fst res).
Proof.
  apply (updateItem_rename_unchecked Scenario.pantry "alice" Sample.alice
           Sample.milkA
           (InventoryItem.mk "i4" "famA" "Bread" 1%float "pieces" "bakery" None
              None None None "alice" true 7000%Z 7000%Z)
           9000%Z);
    try reflexivity; try (simpl; tauto); try discriminate.
  unfold uniqueItemIds. simpl.
  repeat constructor; simpl; intuition discriminate.
Defined.

(** A delete that is answered 200. *)
Lemma deleteItem_success db userId itemId now :
  uniqueItemIds db ->
  success (snd (InventoryController.deleteItem db userId itemId now)) = true ->
  exists m before e after,
    findFamilyMember db userId = Some m /\
    inventoryItems db = (before ++ e :: after)%list /\
    InventoryItem.id e = itemId /\
    InventoryItem.familyId e = FamilyMember.familyId m /\
    InventoryItem.isActive e = true /\
    InventoryController.deleteItem db userId itemId now
    = (withInventoryItems db
         (before ++ InventoryController.softDelete now e :: after)%list,
       mkResponse 200 true (Some "Item deleted successfully") None).
Proof.
  intros Hnd. unfold InventoryController.deleteItem.
  destruct (findFamilyMember db userId) as [m|]; [|discriminate].
  destruct (Prisma.findFirst _ _) as [e|] eqn:He; [|discriminate].
  destruct (owned_update db _ _ (InventoryController.softDelete now) e Hnd He)
    as (before & after & Hrows & Hid & Hfam & Hact & Hupd).
  rewrite Hupd. intros _. exists m, before, e, after. auto 10.
Qed.

(** X6. After a delete that succeeded, a second delete of the same id by
    the same user is answered 404 "Item not found" and changes nothing. *)
Theorem deleteItem_twice db userId itemId t1 t2 :
  uniqueItemIds db ->
  success (snd (InventoryController.deleteItem db userId itemId t1)) = true ->
  let db1 := fst (InventoryController.deleteItem db userId itemId t1) in
  InventoryController.deleteItem db1 userId itemId t2
  = (db1, InventoryController.itemNotFound).
Proof.
  intros Hnd Hok db1.
  destruct (deleteItem_success db userId itemId t1 Hnd Hok)
    as (m & before & e & after & Hm & Hrows & Hid & _ & _ & Hres).
  subst db1. rewrite Hres. cbn [fst].
  rewrite deleteItem_not_found.
  - change (findFamilyMember (withInventoryItems db _) userId)
      with (findFamilyMember db userId).
    now rewrite Hm.
  - cbn [inventoryItems withInventoryItems]. intros j Hj Hidj.
    apply in_app_or in Hj. unfold uniqueItemIds in Hnd. rewrite Hrows in Hnd.
    destruct Hj as [Hj|[<-|Hj]]; [|reflexivity|].
    + pose proof (unique_others InventoryItem.id before e after Hnd j
                    (in_or_app _ _ _ (or_introl Hj))) as Hne.
      apply String.eqb_neq in Hne. congruence.
    + pose proof (unique_others InventoryItem.id before e after Hnd j
                    (in_or_app _ _ _ (or_intror Hj))) as Hne.
      apply String.eqb_neq in Hne. congruence.
Qed.

(** The theorem at the sample store: alice deletes "Milk" twice. *)
Lemma deleteItem_twice_witness :
  let db1 := fst (InventoryController.deleteItem Sample.db "alice" "i1" 8000%Z) in
  InventoryController.deleteItem db1 "alice" "i1" 8500%Z
  = (db1, InventoryController.itemNotFound).
Proof.
  exact (deleteItem_twice Sample.db "alice" "i1" 8000%Z 8500%Z
           sample_uniqueItemIds eq_refl).
Defined.

Lemma itemsOf_replace B db before e e' after :
  inventoryItems db = (before ++ e :: after)%list ->
  InventoryItem.familyId e <> B -> InventoryItem.familyId e' <> B ->
  itemsOf B (withInventoryItems db (before ++ e' :: after)%list) = itemsOf B db.
Proof.
  intros Hrows He He'. unfold itemsOf. simpl. rewrite Hrows, !filter_app. simpl.
  apply String.eqb_neq in He, He'. now rewrite He, He'.
Qed.

(** X7. An update or a delete by a member of family A leaves the inventory
    rows of every other family as they were, whatever id is asked for. *)
Theorem update_delete_other_families_unchanged db userId m B itemId b now :
  uniqueItemIds db ->
  findFamilyMember db userId = Some m ->
  B <> FamilyMember.familyId m ->
  itemsOf B (fst (InventoryController.updateItem db userId itemId b now))
  = itemsOf B db /\
  itemsOf B (fst (InventoryController.deleteItem db userId itemId now))
  = itemsOf B db.
Proof.
  intros Hnd Hm HB. split.
  - unfold InventoryController.updateItem.
    destruct (negb _); [reflexivity|]. rewrite Hm.
    destruct (Prisma.findFirst _ _) as [e|] eqn:He; [|reflexivity].
    destruct (owned_update db _ _
                (InventoryController.applyUpdate
                   (InventoryController.buildUpdateData b) now) e Hnd He)
      as (before & after & Hrows & _ & Hfam & _ & Hupd).
    rewrite Hupd. cbn [fst].
    apply (itemsOf_replace B db before e _ after Hrows); [congruence|].
    rewrite applyUpdate_fields. simpl. congruence.
  - unfold InventoryController.deleteItem. rewrite Hm.
    destruct (Prisma.findFirst _ _) as [e|] eqn:He; [|reflexivity].
    destruct (owned_update db _ _ (InventoryController.softDelete now) e Hnd He)
      as (before & after & Hrows & _ & Hfam & _ & Hupd).
    rewrite Hupd. cbn [fst].
    apply (itemsOf_replace B db before e _ after Hrows); simpl; congruence.
Qed.

(** The theorem at the sample store: bob (family B) asks to rename and to
    delete the "Milk" of family A. *)
Lemma update_delete_other_families_unchanged_witness :
  itemsOf "famA"
    (fst (InventoryController.updateItem Sample.db "bob" "i1" Sample.renameToMilk 8000%Z))
  = itemsOf "famA" Sample.db /\
  itemsOf "famA" (fst (InventoryController.deleteItem Sample.db "bob" "i1" 8000%Z))
  = itemsOf "famA" Sample.db.
Proof.
  apply (update_delete_other_families_unchanged Sample.db "bob" Sample.bob "famA"
           "i1" Sample.renameToMilk 8000%Z sample_uniqueItemIds eq_refl).
  discriminate.
Defined.




(** ** Creating and joining a family *)

Lemma findFirst_last (Row : Type) (p : Row -> bool) (rows : list Row) (x : Row) :
  (forall y, In y rows -> p y = false) -> p x = true ->
  Prisma.findFirst p (rows ++ [x]) = Some x.
Proof.
  intros Hrows Hx. unfold Prisma.findFirst.
  induction rows as [|r rows IH]; simpl.
  - now rewrite Hx.
  - rewrite (Hrows r (or_introl eq_refl)). apply IH.
    intros y Hy. apply Hrows. now right.
Qed.

Lemma no_member_row db userId :
  findFamilyMember db userId = None ->
  forall m, In m (familyMembers db) -> (FamilyMember.userId m =? userId) = false.
Proof. intros H. now apply findFirst_none. Qed.

(** X9. For a user without a member row, a valid name and an invite code
    no family has: createFamily answers 201 and stores the family, owned by
    the user, with one member row of role owner; from then on the user is
    resolved to that row, and every further valid createFamily or joinFamily
    call of the user is answered "User already belongs to a family" and
    changes nothing. *)
Theorem createFamily_then_locked db userId name code newFamilyId newMemberId :
  isLength 1 100 name = true ->
  (forall m, In m (familyMembers db) -> FamilyMember.userId m <> userId) ->
  (forall f, In f (families db) -> Family.inviteCode f <> code) ->
  let owner := FamilyMember.mk newMemberId newFamilyId userId "owner" true in
  let db1 :=
    withFamilyMembers
      (withFamilies db (families db ++ [Family.mk newFamilyId name code userId])%list)
      (familyMembers db ++ [owner])%list in
  FamilyController.createFamily db userId name code newFamilyId newMemberId
  = (db1,
     mkResponse 201 true (Some "Family created successfully")
       (Some (FamilyController.mkFamilyData newFamilyId name (Some code) [owner]))) /\
  findFamilyMember db1 userId = Some owner /\
  (forall name' code' f' m',
     isLength 1 100 name' = true ->
     FamilyController.createFamily db1 userId name' code' f' m'
     = (db1, FamilyController.alreadyMember)) /\
  (forall code' m',
     isLength 6 6 code' = true ->
     FamilyController.joinFamily db1 userId code' m'
     = (db1, FamilyController.alreadyMember)).
Proof.
  intros Hname Hno _ owner db1.
  assert (Hfind : findFamilyMember db1 userId = Some owner).
  { unfold findFamilyMember, db1. cbn [familyMembers withFamilyMembers].
    apply findFirst_last.
    - intros y Hy. apply String.eqb_neq. auto.
    - apply String.eqb_refl. }
  split; [|split; [exact Hfind|split]].
  - unfold FamilyController.createFamily.
    rewrite Hname, (findFamilyMember_none db userId Hno). reflexivity.
  - intros name' code' f' m' Hv. unfold FamilyController.createFamily.
    now rewrite Hv, Hfind.
  - intros code' m' Hv. unfold FamilyController.joinFamily.
    now rewrite Hv, Hfind.
Qed.

(** The theorem at the empty store: erin creates a family, then tries to
    join another. *)
Lemma createFamily_then_locked_witness :
  let db1 :=
    fst (FamilyController.createFamily emptyDb "erin" "Erins" "EEEEEE" "famE" "m9") in
  findFamilyMember db1 "erin"
  = Some (FamilyMember.mk "m9" "famE" "erin" "owner" true) /\
  FamilyController.joinFamily db1 "erin" "AAAAAA" "m10"
  = (db1, FamilyController.alreadyMember).
Proof.
  destruct (createFamily_then_locked emptyDb "erin" "Erins" "EEEEEE" "famE" "m9"
              eq_refl) as (_ & Hfind & _ & Hjoin).
  - intros m [].
  - intros f [].
  - split; [exact Hfind|]. exact (Hjoin "AAAAAA" "m10" eq_refl).
Defined.

(** X10. For a user without a member row and a six-character code: when no
    family has the code, joinFamily answers 404 "Invalid invite code" and
    changes nothing; when a family has it (codes being unique), the user gets
    one member row of role member in exactly that family, no family row is
    written, and the user is resolved to that family from then on. *)
Theorem joinFamily_by_code db userId code newMemberId :
  isLength 6 6 code = true ->
  (forall m, In m (familyMembers db) -> FamilyMember.userId m <> userId) ->
  NoDup (map Family.inviteCode (families db)) ->
  ((forall f, In f (families db) -> Family.inviteCode f <> code) ->
   FamilyController.joinFamily db userId code newMemberId
   = (db, mkResponse 404 false (Some "Invalid invite code") None)) /\
  (forall f,
     In f (families db) -> Family.inviteCode f = code ->
     let member := FamilyMember.mk newMemberId (Family.id f) userId "member" true in
     let db1 := withFamilyMembers db (familyMembers db ++ [member])%list in
     FamilyController.joinFamily db userId code newMemberId
     = (db1,
        mkResponse 200 true (Some "Successfully joined family")
          (Some (FamilyController.mkFamilyData (Family.id f) (Family.name f) None []))) /\
     findFamilyMember db1 userId = Some member).
Proof.
  intros Hv Hno Hcodes.
  unfold FamilyController.joinFamily.
  rewrite Hv, (findFamilyMember_none db userId Hno). cbn [negb]. split.
  - intros Hnone.
    assert (Hf : Prisma.findFirst (fun f => Family.inviteCode f =? code)
                   (families db) = None).
    { apply findFirst_none. intros f Hf. apply String.eqb_neq. auto. }
    now rewrite Hf.
  - intros f Hin Hcode.
    assert (Hf : Prisma.findFirst (fun f => Family.inviteCode f =? code)
                   (families db) = Some f).
    { destruct (findFirst_exists (fun f => Family.inviteCode f =? code)
                  (families db)) as [f0 Hf0].
      { exists f. split; auto. now apply String.eqb_eq. }
      rewrite Hf0. f_equal.
      destruct (findFirst_split _ _ _ Hf0) as (before & after & Hrows & Hp & _).
      apply String.eqb_eq in Hp. rewrite Hrows in Hcodes, Hin.
      apply in_app_or in Hin. destruct Hin as [Hin|[Hin|Hin]]; auto.
      - pose proof (unique_others Family.inviteCode before f0 after Hcodes f
                      (in_or_app _ _ _ (or_introl Hin))) as Hne.
        apply String.eqb_neq in Hne. congruence.
      - pose proof (unique_others Family.inviteCode before f0 after Hcodes f
                      (in_or_app _ _ _ (or_intror Hin))) as Hne.
        apply String.eqb_neq in Hne. congruence. }
    rewrite Hf. split; [reflexivity|].
    unfold findFamilyMember. cbn [familyMembers withFamilyMembers].
    apply findFirst_last.
    + intros y Hy. apply String.eqb_neq. auto.
    + apply String.eqb_refl.
Qed.

(** The theorem at the sample store: erin joins family B by its code. *)
Lemma joinFamily_by_code_witness :
  findFamilyMember
    (fst (FamilyController.joinFamily Sample.db "erin" "BBBBBB" "m9")) "erin"
  = Some (FamilyMember.mk "m9" "famB" "erin" "member" true) /\
  FamilyController.joinFamily Sample.db "erin" "ZZZZZZ" "m9"
  = (Sample.db, mkResponse 404 false (Some "Invalid invite code") None).
Proof.
  destruct (joinFamily_by_code Sample.db "erin" "BBBBBB" "m9" eq_refl)
    as (_ & Hjoin).
  - intros m [<-|[<-|[<-|[<-|[]]]]]; discriminate.
  - simpl. repeat constructor; simpl; intuition discriminate.
  - destruct (joinFamily_by_code Sample.db "erin" "ZZZZZZ" "m9" eq_refl)
      as (Hnone & _).
    + intros m [<-|[<-|[<-|[<-|[]]]]]; discriminate.
    + simpl. repeat constructor; simpl; intuition discriminate.
    + split.
      * destruct (Hjoin (Family.mk "famB" "B" "BBBBBB" "bob")
                    (or_intror (or_introl eq_refl)) eq_refl) as [Hres Hfind].
        rewrite Hres. exact Hfind.
      * apply Hnone. intros f [<-|[<-|[]]]; discriminate.
Defined.

(** X11. createFamily and joinFamily keep the member table with at most
    one row per user. *)
Theorem create_join_keep_one_family_per_user db userId :
  oneFamilyPerUser db ->
  (forall name code newFamilyId newMemberId,
     oneFamilyPerUser
       (fst (FamilyController.createFamily db userId name code newFamilyId newMemberId))) /\
  (forall code newMemberId,
     oneFamilyPerUser (fst (FamilyController.joinFamily db userId code newMemberId))).
Proof.
  intros Hnd.
  assert (Hadd : forall row,
            findFamilyMember db userId = None ->
            FamilyMember.userId row = userId ->
            NoDup (map FamilyMember.userId (familyMembers db ++ [row]))).
  { intros row Hnone Hu. rewrite map_app. simpl.
    apply NoDup_app; [exact Hnd | repeat constructor; intros [] |].
    intros u Hin [<-|[]]. apply in_map_iff in Hin.
    destruct Hin as (m & Hmu & Hm).
    pose proof (no_member_row db userId Hnone m Hm) as Hne.
    apply String.eqb_neq in Hne. congruence. }
  unfold FamilyController.createFamily, FamilyController.joinFamily. split.
  - intros name code f mid. destruct (negb _); [exact Hnd|].
    destruct (findFamilyMember db userId) eqn:Hm; [exact Hnd|].
    apply Hadd; auto.
  - intros code mid. destruct (negb _); [exact Hnd|].
    destruct (findFamilyMember db userId) eqn:Hm; [exact Hnd|].
    destruct (Prisma.findFirst _ _); [|exact Hnd].
    apply Hadd; auto.
Qed.

(** The theorem at the sample store: erin joins family B. *)
Lemma create_join_keep_one_family_per_user_witness :
  oneFamilyPerUser (fst (FamilyController.joinFamily Sample.db "erin" "BBBBBB" "m9")).
Proof.
  apply (create_join_keep_one_family_per_user Sample.db "erin").
  unfold oneFamilyPerUser. simpl.
  repeat constructor; simpl; intuition discriminate.
Defined.

(** ** Adding and listing members *)






(** X14. The member listing of a family is for users with a member row in
    it: any other caller is answered 403 "Access denied"; an answered listing
    holds exactly the active member rows of that family, in storage order,
    and [totalCount] is their number. *)
Theorem getMembers_scoped d userId familyId :
  ((forall m, In m (familyMembers d) -> FamilyMember.familyId m = familyId ->
              FamilyMember.userId m <> userId) ->
   MemberRoutes.getMembers d userId familyId
   = (d, mkResponse 403 false (Some "Access denied") None)) /\
  (forall l,
     data (snd (MemberRoutes.getMembers d userId familyId)) = Some l ->
     MemberRoutes.totalCount l = Z.of_nat (List.length (MemberRoutes.members l)) /\
     forall m,
       In m (MemberRoutes.members l) <->
       In m (familyMembers d) /\ FamilyMember.familyId m = familyId /\
       FamilyMember.isActive m = true).
Proof.
  unfold MemberRoutes.getMembers. split.
  - intros Hno.
    assert (Hf : Prisma.findFirst
                   (fun m => (FamilyMember.familyId m =? familyId) &&
                             (FamilyMember.userId m =? userId))
                   (familyMembers d) = None).
    { apply findFirst_none. intros m Hm.
      destruct (FamilyMember.familyId m =? familyId) eqn:Hf; auto.
      apply String.eqb_eq in Hf. simpl. apply String.eqb_neq. auto. }
    now rewrite Hf.
  - intros l. destruct (Prisma.findFirst _ _); [|discriminate].
    simpl. intros [= <-]. simpl. split; [reflexivity|].
    intros m. unfold Prisma.findMany. rewrite filter_In, andb_true_iff, String.eqb_eq.
    tauto.
Qed.

(** The theorem at the sample store: carol lists the members of family A,
    bob is turned away. *)
Lemma getMembers_scoped_witness :
  option_map MemberRoutes.members
    (data (snd (MemberRoutes.getMembers Sample.db "carol" "famA")))
  = Some [Sample.alice; Sample.carol] /\
  MemberRoutes.getMembers Sample.db "bob" "famA"
  = (Sample.db, mkResponse 403 false (Some "Access denied") None).
Proof.
  split; [reflexivity|].
  apply (proj1 (getMembers_scoped Sample.db "bob" "famA")).
  intros m [<-|[<-|[<-|[<-|[]]]]]; simpl; intros; discriminate.
Defined.

(** ** Orders *)

Lemma order_found db orderId familyId o :
  uniqueOrderIds db -> In o (orders db) ->
  Order.id o = orderId -> Order.familyId o = familyId ->
  exists before after,
    orders db = (before ++ o :: after)%list /\
    Prisma.findFirst
      (fun x => (Order.id x =? orderId) && (Order.familyId x =? familyId))
      (orders db) = Some o /\
    forall f,
      Prisma.update (fun x => Order.id x =? orderId) f (orders db)
      = ((before ++ f o :: after)%list, Some (f o)).
Proof.
  intros Hnd Hin Hid Hfam.
  destruct (in_split o _ Hin) as (before & after & Hrows).
  exists before, after. split; [exact Hrows|].
  unfold uniqueOrderIds in Hnd. rewrite Hrows in Hnd |- *.
  pose proof (unique_others Order.id before o after Hnd) as Hoth.
  split.
  - unfold Prisma.findFirst.
    assert (Hb : forall l, (forall y, In y l -> In y (before ++ after)) ->
              find (fun x => (Order.id x =? orderId) && (Order.familyId x =? familyId))
                (l ++ o :: after)
              = Some o).
    { induction l as [|r l IH]; simpl; intros Hl.
      - now rewrite Hid, Hfam, !String.eqb_refl.
      - rewrite <- Hid, (Hoth r (Hl r (or_introl eq_refl))). simpl.
        rewrite Hid. apply IH. intros y Hy. apply Hl. now right. }
    apply Hb. intros y Hy. apply in_or_app. now left.
  - intros f. rewrite <- Hid. apply (update_unique Order.id f before o after Hnd).
Qed.

(** X15. For a member, one of the four statuses and an order of the
    member's family, whatever its current status: the status route answers
    200, sets the status and [updatedAt] of that order alone, and keeps every
    other field, every other order and all item rows.  [completedAt] becomes
    the time of the call when the new status is completed and is kept
    otherwise, so a later change of status never clears it. *)
Theorem updateOrderStatus_stamps db userId m o newStatus now :
  uniqueOrderIds db ->
  findFamilyMember db userId = Some m ->
  isIn ["pending"; "processing"; "completed"; "cancelled"] newStatus = true ->
  In o (orders db) ->
  Order.familyId o = FamilyMember.familyId m ->
  let res := OrderController.updateOrderStatus db userId (Order.id o) newStatus now in
  let o' :=
    Order.mk (Order.id o) (Order.familyId o) (Order.merchantId o) newStatus
      (Order.notes o) (Order.createdBy o) (Order.createdAt o) now
      (if newStatus =? "completed" then Some now else Order.completedAt o) in
  status (snd res) = 200%Z /\
  option_map OrderController.order (data (snd res)) = Some o' /\
  (exists before after,
     orders db = (before ++ o :: after)%list /\
     fst res = withOrders db (before ++ o' :: after)%list) /\
  (Order.completedAt o <> None -> Order.completedAt o' <> None).
Proof.
  intros Hnd Hm Hs Hin Hfam res o'. subst res.
  destruct (order_found db _ _ o Hnd Hin eq_refl Hfam)
    as (before & after & Hrows & Hfind & Hupd).
  unfold OrderController.updateOrderStatus.
  rewrite Hs, Hm, Hfind, Hupd. cbn [negb fst snd status data option_map].
  split; [reflexivity|]. split; [reflexivity|]. split.
  - exists before, after. split; [exact Hrows | reflexivity].
  - subst o'. simpl. destruct (newStatus =? "completed"); [discriminate | auto].
Qed.

(** The theorem after the sample order: alice completes it, then sets it
    back to pending; the completion time stays. *)
Lemma updateOrderStatus_stamps_witness :
  let db1 :=
    fst (OrderController.updateOrderStatus Scenario.ordered "alice" "o1"
           "completed" 500%Z) in
  let db2 :=
    fst (OrderController.updateOrderStatus db1 "alice" "o1" "pending" 600%Z) in
  orders db1
  = [Order.mk "o1" "famA" None "completed" None "alice" 100%Z 500%Z (Some 500%Z)] /\
  orders db2
  = [Order.mk "o1" "famA" None "pending" None "alice" 100%Z 600%Z (Some 500%Z)].
Proof.
  intros db1 db2.
  assert (Hnd : forall o, NoDup (map Order.id [o])).
  { intros o. repeat constructor. intros []. }
  destruct (updateOrderStatus_stamps Scenario.ordered "alice" Sample.alice
              Scenario.eggsOrder "completed" 500%Z (Hnd _) eq_refl eq_refl
              (or_introl eq_refl) eq_refl)
    as (_ & _ & (b1 & a1 & Hrows1 & Hres1) & _).
  destruct b1 as [|x b1]; [|destruct b1; discriminate].
  injection Hrows1 as <-.
  split.
  - unfold db1. change "o1" with (Order.id Scenario.eggsOrder).
    rewrite Hres1. reflexivity.
  - reflexivity.
Defined.

(** X16. An order of another family is treated like an order that does not
    exist: for a member and a valid status, the status route and the detail
    route on the id of an order that is not of the member's family answer 404
    "Order not found", and the store stays as it was. *)
Theorem foreign_order_not_found db userId m orderId newStatus now :
  findFamilyMember db userId = Some m ->
  isIn ["pending"; "processing"; "completed"; "cancelled"] newStatus = true ->
  (forall o, In o (orders db) -> Order.id o = orderId ->
             Order.familyId o <> FamilyMember.familyId m) ->
  OrderController.updateOrderStatus db userId orderId newStatus now
  = (db, mkResponse 404 false (Some "Order not found") None) /\
  OrderQueries.getOrder db userId orderId
  = (db, mkResponse 404 false (Some "Order not found") None).
Proof.
  intros Hm Hs Hforeign.
  assert (Hf : Prisma.findFirst
                 (fun o => (Order.id o =? orderId) &&
                           (Order.familyId o =? FamilyMember.familyId m))
                 (orders db) = None).
  { apply findFirst_none. intros o Ho.
    destruct (Order.id o =? orderId) eqn:Hid; auto.
    apply String.eqb_eq in Hid. simpl. apply String.eqb_neq. auto. }
  unfold OrderController.updateOrderStatus, OrderQueries.getOrder.
  now rewrite Hs, Hm, Hf.
Qed.

(** The theorem after the sample order: bob asks for alice's order. *)
Lemma foreign_order_not_found_witness :
  OrderController.updateOrderStatus Scenario.ordered "bob" "o1" "cancelled" 500%Z
  = (Scenario.ordered, mkResponse 404 false (Some "Order not found") None) /\
  OrderQueries.getOrder Scenario.ordered "bob" "o1"
  = (Scenario.ordered, mkResponse 404 false (Some "Order not found") None).
Proof.
  apply (foreign_order_not_found Scenario.ordered "bob" Sample.bob "o1"
           "cancelled" 500%Z eq_refl eq_refl).
  intros o [<-|[]]; simpl; intros; discriminate.
Defined.

(** X17. A merchant named in an order must be an active merchant of the
    caller's family: a valid createOrder of a member with a non-empty
    merchantId is answered 201 when such a merchant row exists and 404
    "Merchant not found", with nothing written, when none does. *)
Theorem createOrder_merchant_scoped db userId m b merchantId now newOrderId newItemId :
  OrderController.validateCreateOrder b = true ->
  findFamilyMember db userId = Some m ->
  OrderController.b_merchantId b = Some merchantId -> merchantId <> "" ->
  ((exists x, In x (merchants db) /\ Merchant.id x = merchantId /\
              Merchant.familyId x = FamilyMember.familyId m /\
              Merchant.isActive x = true) ->
   status (snd (OrderController.createOrder db userId b now newOrderId newItemId))
   = 201%Z) /\
  ((forall x, In x (merchants db) -> Merchant.id x = merchantId ->
              Merchant.familyId x = FamilyMember.familyId m ->
              Merchant.isActive x = false) ->
   OrderController.createOrder db userId b now newOrderId newItemId
   = (db, OrderController.merchantNotFound)).
Proof.
  intros Hv Hm Hb Hne. unfold OrderController.createOrder.
  rewrite Hv, Hm, Hb. cbn [negb truthy].
  apply String.eqb_neq in Hne. rewrite Hne. cbn [negb]. split.
  - intros (x & Hx & Hid & Hfam & Hact).
    destruct (findFirst_exists
                (fun x => (Merchant.id x =? merchantId) &&
                          (Merchant.familyId x =? FamilyMember.familyId m) &&
                          Merchant.isActive x)
                (merchants db)) as [x0 Hx0].
    { exists x. split; auto. now rewrite Hid, Hfam, Hact, !String.eqb_refl. }
    rewrite Hx0. reflexivity.
  - intros Hnone.
    assert (Hf : Prisma.findFirst
                   (fun x => (Merchant.id x =? merchantId) &&
                             (Merchant.familyId x =? FamilyMember.familyId m) &&
                             Merchant.isActive x)
                   (merchants db) = None).
    { apply findFirst_none. intros x Hx.
      destruct (Merchant.id x =? merchantId) eqn:Hid; auto.
      destruct (Merchant.familyId x =? FamilyMember.familyId m) eqn:Hfam; auto.
      apply String.eqb_eq in Hid, Hfam. simpl. auto. }
    now rewrite Hf.
Qed.

(** The theorem at the market: the shop of family B serves bob and is not
    found for alice. *)
Lemma createOrder_merchant_scoped_witness :
  status (snd (OrderController.createOrder Scenario.market "bob"
                 Scenario.eggsFromShop 100%Z "o1" Sample.itemIds)) = 201%Z /\
  OrderController.createOrder Scenario.market "alice" Scenario.eggsFromShop
    100%Z "o1" Sample.itemIds
  = (Scenario.market, OrderController.merchantNotFound).
Proof.
  split.
  - apply (proj1 (createOrder_merchant_scoped Scenario.market "bob" Sample.bob
                    Scenario.eggsFromShop "mer1" 100%Z "o1" Sample.itemIds
                    eq_refl eq_refl eq_refl ltac:(discriminate))).
    eexists. split; [left; reflexivity|]. repeat split.
  - apply (proj2 (createOrder_merchant_scoped Scenario.market "alice" Sample.alice
                    Scenario.eggsFromShop "mer1" 100%Z "o1" Sample.itemIds
                    eq_refl eq_refl eq_refl ltac:(discriminate))).
    intros x [<-|[]]; simpl; intros; discriminate.
Defined.

(** X18. An answered order listing holds at most [limit] orders
    ([1 <= limit <= 100], 20 by default), each an order of the caller's
    family shown with exactly its own item rows; [totalCount] is the number
    of orders in the answer, not the number of matching orders. *)
Theorem getOrders_scoped db userId q l :
  data (snd (OrderQueries.getOrders db userId q)) = Some l ->
  let limit := match OrderQueries.q_limit q with Some n => n | None => 20%Z end in
  (1 <= limit <= 100)%Z /\
  OrderQueries.l_totalCount l = Z.of_nat (List.length (OrderQueries.l_orders l)) /\
  (OrderQueries.l_totalCount l <= limit)%Z /\
  exists m,
    findFamilyMember db userId = Some m /\
    forall e,
      In e (OrderQueries.l_orders l) ->
      In (OrderController.order e) (orders db) /\
      Order.familyId (OrderController.order e) = FamilyMember.familyId m /\
      forall i,
        In i (OrderController.items e) <->
        In i (orderItems db) /\
        OrderItem.orderId i = Order.id (OrderController.order e).
Proof.
  unfold OrderQueries.getOrders.
  destruct (optional _ (OrderQueries.q_limit q)) eqn:Hv; [|discriminate].
  cbn [negb]. destruct (findFamilyMember db userId) as [m|]; [|discriminate].
  simpl. intros [= <-]. simpl.
  assert (Hl : (1 <= match OrderQueries.q_limit q with
                     | Some n => n | None => 20 end <= 100)%Z).
  { unfold optional, isInt in Hv. destruct (OrderQueries.q_limit q); [|lia].
    rewrite andb_true_iff, !Z.leb_le in Hv. lia. }
  split; [exact Hl|]. rewrite length_map. split; [reflexivity|]. split.
  - rewrite paginate_length by lia. lia.
  - exists m. split; [reflexivity|]. intros e He.
    apply in_map_iff in He. destruct He as (o & <- & Ho).
    apply paginate_In, orderBy_In, filter_In in Ho. destruct Ho as [Ho Hw].
    unfold OrderQueries.ordersWhere in Hw. rewrite !andb_true_iff in Hw.
    destruct Hw as [[Hf _] _]. apply String.eqb_eq in Hf.
    simpl. split; [exact Ho|]. split; [exact Hf|].
    intros i. unfold Prisma.findMany. rewrite filter_In, String.eqb_eq. tauto.
Qed.

(** The theorem after the sample order: alice lists her orders. *)
Lemma getOrders_scoped_witness :
  let l :=
    OrderQueries.mkListData
      [OrderController.mkOrderData Scenario.eggsOrder
         [OrderItem.mk "0" "o1" None "Eggs" 12%float "pieces" None]] 1 in
  OrderQueries.l_totalCount l = Z.of_nat (List.length (OrderQueries.l_orders l)) /\
  (OrderQueries.l_totalCount l <= 20)%Z.
Proof.
  intros l.
  destruct (getOrders_scoped Scenario.ordered "alice"
              (OrderQueries.mkListQuery None None None) l eq_refl)
    as (_ & Hcount & Hle & _).
  split; [exact Hcount | exact Hle].
Defined.

(** ** Notifications *)

(** X19. A notification of another family is treated like one that does
    not exist: for a member, mark-read on the id of a notification that is
    not of the member's family answers 404 "Notification not found" and
    stores no read row. *)
Theorem foreign_notification_not_found db userId m notificationId now :
  findFamilyMember db userId = Some m ->
  (forall n, In n (notifications db) -> Notification.id n = notificationId ->
             Notification.familyId n <> FamilyMember.familyId m) ->
  NotificationController.markRead db userId notificationId now
  = (db, mkResponse 404 false (Some "Notification not found") None).
Proof.
  intros Hm Hforeign. unfold NotificationController.markRead. rewrite Hm.
  assert (Hf : Prisma.findFirst
                 (fun n => (Notification.id n =? notificationId) &&
                           (Notification.familyId n =? FamilyMember.familyId m))
                 (notifications db) = None).
  { apply findFirst_none. intros n Hn.
    destruct (Notification.id n =? notificationId) eqn:Hid; auto.
    apply String.eqb_eq in Hid. simpl. apply String.eqb_neq. auto. }
  now rewrite Hf.
Qed.

(** The theorem at the sample store: bob marks family A's notification. *)
Lemma foreign_notification_not_found_witness :
  NotificationController.markRead Sample.db "bob" "n1" 9000%Z
  = (Sample.db, mkResponse 404 false (Some "Notification not found") None).
Proof.
  apply (foreign_notification_not_found Sample.db "bob" Sample.bob "n1" 9000%Z
           eq_refl).
  intros n [<-|[]]; simpl; intros; discriminate.
Defined.

Lemma noReadBy_fresh db userId n :
  (forall r, In r (notificationReads db) ->
             NotificationRead.notificationId r <> Notification.id n) ->
  NotificationController.noReadBy db userId n = true.
Proof.
  intros Hfresh. rewrite noReadBy_spec. apply negb_true_iff.
  apply not_true_is_false. intros Hex. apply existsb_exists in Hex.
  destruct Hex as (r & Hr & Hk). apply andb_true_iff in Hk.
  destruct Hk as [Hk _]. apply String.eqb_eq in Hk. now elim (Hfresh r Hr).
Qed.

(** X20. A valid send by a member stores one notification of the member's
    family, addressed to the recipients of the request or, when these are
    absent or empty, to the users of the active member rows of the family.
    As the new id has no read rows, the unread count of the family goes up by
    exactly one for every user, recipient or not, and the counts of all other
    families stay. *)
Theorem sendNotification_counts db userId m b now newId :
  NotificationController.validateSend b = true ->
  findFamilyMember db userId = Some m ->
  (forall r, In r (notificationReads db) ->
             NotificationRead.notificationId r <> newId) ->
  let res := NotificationController.sendNotification db userId b now newId in
  let recipients :=
    match NotificationController.s_recipients b with
    | Some (r :: rs) => r :: rs
    | _ =>
        map FamilyMember.userId
          (filter
             (fun x => (FamilyMember.familyId x =? FamilyMember.familyId m) &&
                       FamilyMember.isActive x)
             (familyMembers db))
    end in
  let sent :=
    Notification.mk newId (FamilyMember.familyId m)
      (NotificationController.s_type b) (NotificationController.s_title b)
      (NotificationController.s_message b) recipients
      (NotificationController.s_data b) now in
  res = (withNotifications db (notifications db ++ [sent])%list,
         mkResponse 201 true (Some "Notification sent successfully") (Some sent)) /\
  (forall u,
     NotificationController.unreadCount (fst res) (FamilyMember.familyId m) u
     = (NotificationController.unreadCount db (FamilyMember.familyId m) u + 1)%Z) /\
  (forall F u,
     F <> FamilyMember.familyId m ->
     NotificationController.unreadCount (fst res) F u
     = NotificationController.unreadCount db F u).
Proof.
  intros Hv Hm Hfresh res recipients sent.
  assert (Hres : res = (withNotifications db (notifications db ++ [sent])%list,
                        mkResponse 201 true (Some "Notification sent successfully")
                          (Some sent))).
  { unfold res, NotificationController.sendNotification. now rewrite Hv, Hm. }
  split; [exact Hres|]. rewrite Hres. cbn [fst].
  assert (Hcount : forall F u,
            NotificationController.unreadCount
              (withNotifications db (notifications db ++ [sent])%list) F u
            = (NotificationController.unreadCount db F u
               + if String.eqb (FamilyMember.familyId m) F then 1 else 0)%Z).
  { intros F u. unfold NotificationController.unreadCount.
    cbn [notifications withNotifications]. rewrite count_app. f_equal.
    unfold Prisma.count. cbn [filter Notification.familyId sent].
    rewrite (noReadBy_fresh _ u sent) by exact Hfresh.
    destruct (FamilyMember.familyId m =? F); reflexivity. }
  split.
  - intros u. now rewrite Hcount, String.eqb_refl.
  - intros F u HF. rewrite Hcount.
    assert (Hne : (FamilyMember.familyId m =? F) = false)
      by (apply String.eqb_neq; congruence).
    rewrite Hne. lia.
Qed.

(** The theorem at the sample store: alice sends to the whole family; the
    count of carol goes from one to two, and dave, whose row is deactivated,
    is not addressed. *)
Lemma sendNotification_counts_witness :
  let res :=
    NotificationController.sendNotification Sample.db "alice" Scenario.hello
      9000%Z "n2" in
  option_map Notification.recipients (data (snd res)) = Some ["alice"; "carol"] /\
  NotificationController.unreadCount (fst res) "famA" "carol" = 2%Z /\
  NotificationController.unreadCount (fst res) "famB" "bob" = 0%Z.
Proof.
  intros res.
  destruct (sendNotification_counts Sample.db "alice" Sample.alice Scenario.hello
              9000%Z "n2" eq_refl eq_refl) as (Hres & Hup & Hsame).
  - intros r [].
  - split; [exact (f_equal (fun x => option_map Notification.recipients (data (snd x))) Hres)|].
    split.
    + exact (Hup "carol").
    + apply (Hsame "famB" "bob"). discriminate.
Defined.

(** X21. An answered notification listing holds at most [limit]
    notifications ([1 <= limit <= 100], 20 by default), each a notification
    of the caller's family and, when a non-empty type is asked for, of that
    type; the [read] parameter of the query has no effect on the answer. *)
Theorem getNotifications_scoped db userId q l :
  data (snd (NotificationController.getNotifications db userId q)) = Some l ->
  let limit := match NotificationController.q_limit q with Some n => n | None => 20%Z end in
  (Z.of_nat (List.length (NotificationController.l_notifications l)) <= limit <= 100)%Z /\
  (exists m,
     findFamilyMember db userId = Some m /\
     forall n,
       In n (NotificationController.l_notifications l) ->
       In n (notifications db) /\
       Notification.familyId n = FamilyMember.familyId m /\
       forall t, NotificationController.q_type q = Some t -> t <> "" ->
                 Notification.type n = t) /\
  (forall read,
     NotificationController.getNotifications db userId
       (NotificationController.mkListQuery (NotificationController.q_type q) read
          (NotificationController.q_limit q))
     = NotificationController.getNotifications db userId q).
Proof.
  unfold NotificationController.getNotifications.
  destruct (optional _ (NotificationController.q_limit q)) eqn:Hv; [|discriminate].
  cbn [negb]. destruct (findFamilyMember db userId) as [m|]; [|discriminate].
  simpl. intros [= <-]. simpl.
  assert (Hl : (1 <= match NotificationController.q_limit q with
                     | Some n => n | None => 20 end <= 100)%Z).
  { unfold optional, isInt in Hv. destruct (NotificationController.q_limit q); [|lia].
    rewrite andb_true_iff, !Z.leb_le in Hv. lia. }
  split; [|split].
  - rewrite paginate_length by lia. lia.
  - exists m. split; [reflexivity|]. intros n Hn.
    apply paginate_In, orderBy_In, filter_In in Hn. destruct Hn as [Hn Hw].
    rewrite andb_true_iff in Hw. destruct Hw as [Hf Ht].
    split; [exact Hn|]. split; [now apply String.eqb_eq|].
    intros t Hq Hne. rewrite Hq in Ht. simpl in Ht.
    apply String.eqb_neq in Hne. rewrite Hne in Ht. simpl in Ht.
    now apply String.eqb_eq.
  - intros read. now rewrite Hv.
Qed.

(** The theorem at the sample store: carol lists with [read=true], though
    she has read nothing. *)
Lemma getNotifications_scoped_witness :
  NotificationController.getNotifications Sample.db "carol"
    (NotificationController.mkListQuery None (Some true) None)
  = (Sample.db,
     mkResponse 200 true None
       (Some (NotificationController.mkListData [Sample.note] 1))).
Proof.
  destruct (getNotifications_scoped Sample.db "carol"
              (NotificationController.mkListQuery None None None)
              (NotificationController.mkListData [Sample.note] 1) eq_refl)
    as (_ & _ & Hread).
  exact (eq_trans (Hread (Some true)) eq_refl).
Defined.

(** ** The expiry lists of the two screens *)

(** X22. As time passes an item only moves from fresh to expiring to
    expired: the classification at a later instant is never an earlier
    stage than at an earlier instant. *)
Theorem getExpiryStatus_monotone t1 t2 item :
  (t1 <= t2)%Z ->
  (statusRank (InventoryScreen.getExpiryStatus t1 item)
   <= statusRank (InventoryScreen.getExpiryStatus t2 item))%Z.
Proof.
  intros Ht. destruct (InventoryItem.expiryDate item) as [d|] eqn:Hd.
  - rewrite (getExpiryStatus_instants t1 item d Hd),
      (getExpiryStatus_instants t2 item d Hd).
    pose proof MS_PER_DAY_pos.
    repeat match goal with
      | |- context [(?a <=? ?b)%Z] => destruct (Z.leb_spec a b)
      end; simpl; lia.
  - unfold InventoryScreen.getExpiryStatus. rewrite Hd. simpl. lia.
Qed.

(** The theorem for an item that expires at the start of day 102, seen on
    day 100 and on day 103. *)
Lemma getExpiryStatus_monotone_witness :
  let item :=
    InventoryItem.mk "i1" "famA" "Milk" 1%float "litres" "dairy" None
      (Some (instant 102 0)) None None "alice" true 0%Z 0%Z in
  (statusRank (InventoryScreen.getExpiryStatus (instant 100 0) item)
   <= statusRank (InventoryScreen.getExpiryStatus (instant 103 0) item))%Z.
Proof.
  intros item. apply getExpiryStatus_monotone. unfold instant. simpl. lia.
Defined.

(** X23. The home screen and the inventory screen agree as follows: the
    home screen's expiring list is exactly the items the inventory screen
    does not classify fresh, so it includes the expired ones; every item the
    inventory screen classifies expired is in the home screen's expired list;
    and an item of the home screen's expired list is expired or, within a day
    after its expiry instant, expiring on the inventory screen, never
    fresh. *)
Theorem home_and_inventory_screens_agree today items i :
  (In i (HomeScreen.getExpiringItems today items) <->
   In i items /\ InventoryScreen.getExpiryStatus today i <> InventoryScreen.fresh) /\
  (In i items ->
   InventoryScreen.getExpiryStatus today i = InventoryScreen.expired ->
   In i (HomeScreen.getExpiredItems today items)) /\
  (In i (HomeScreen.getExpiredItems today items) ->
   InventoryScreen.getExpiryStatus today i <> InventoryScreen.fresh).
Proof.
  unfold HomeScreen.getExpiringItems, HomeScreen.getExpiredItems.
  rewrite !filter_In.
  destruct (InventoryItem.expiryDate i) as [d|] eqn:Hd.
  - rewrite (getExpiryStatus_instants today i d Hd).
    unfold InventoryScreen.MS_PER_DAY.
    destruct (Z.leb_spec (d - today) (- (1000 * 60 * 60 * 24)));
      destruct (Z.leb_spec (d - today) (2 * (1000 * 60 * 60 * 24)));
      destruct (Z.leb_spec d (today + 2 * 24 * 60 * 60 * 1000));
      destruct (Z.ltb_spec d today);
      try lia; (repeat split; try tauto; try discriminate;
                intuition (try discriminate; try congruence)).
  - unfold InventoryScreen.getExpiryStatus. rewrite Hd.
    repeat split; try tauto; intuition discriminate.
Qed.

(** ** The client's notification reducers *)

Lemma readByUser_pushRead userId now n :
  NotificationsSlice.readByUser userId (NotificationsSlice.pushRead userId now n) = true.
Proof.
  unfold NotificationsSlice.readByUser, NotificationsSlice.pushRead. simpl.
  rewrite existsb_app. simpl. rewrite String.eqb_refl. apply orb_true_r.
Qed.

Lemma unreadOf_split userId before n after count isLoading error :
  NotificationsSlice.unreadOf userId
    (NotificationsSlice.mkState (before ++ n :: after) count isLoading error)
  = (Z.of_nat (List.length
                 (filter (fun x => negb (NotificationsSlice.readByUser userId x)) before))
     + (if NotificationsSlice.readByUser userId n then 0 else 1)
     + Z.of_nat (List.length
                   (filter (fun x => negb (NotificationsSlice.readByUser userId x)) after)))%Z.
Proof.
  unfold NotificationsSlice.unreadOf. cbn [NotificationsSlice.notifications].
  rewrite filter_app, length_app. cbn [filter].
  destruct (NotificationsSlice.readByUser userId n); cbn [negb List.length]; lia.
Qed.

Lemma findFirst_first (Row : Type) (p : Row -> bool) (before after : list Row) e :
  (forall y, In y before -> p y = false) -> p e = true ->
  Prisma.findFirst p (before ++ e :: after) = Some e.
Proof.
  intros Hb He. unfold Prisma.findFirst.
  induction before as [|r before IH]; simpl.
  - now rewrite He.
  - rewrite (Hb r (or_introl eq_refl)). apply IH. intros y Hy. apply Hb. now right.
Qed.

(** A local mark-read that changes the state. *)
Lemma markAsReadLocally_marks state notificationId userId now n :
  find (NotificationsSlice.hasId notificationId)
    (NotificationsSlice.notifications state) = Some n ->
  NotificationsSlice.readByUser userId n = false ->
  exists before after,
    NotificationsSlice.notifications state = (before ++ n :: after)%list /\
    (forall y, In y before -> NotificationsSlice.hasId notificationId y = false) /\
    NotificationsSlice.hasId notificationId n = true /\
    NotificationsSlice.markAsReadLocally state notificationId userId now
    = NotificationsSlice.mkState
        (before ++ NotificationsSlice.pushRead userId now n :: after)
        (Z.max 0 (NotificationsSlice.unreadCount state - 1))
        (NotificationsSlice.isLoading state) (NotificationsSlice.error state).
Proof.
  intros Hfind Hunread.
  destruct (findFirst_split _ _ _ Hfind) as (before & after & Hrows & Hp & Hb).
  exists before, after. split; [exact Hrows|]. split; [exact Hb|].
  split; [exact Hp|].
  unfold NotificationsSlice.markAsReadLocally. rewrite Hfind, Hunread. cbn [negb].
  now rewrite Hrows, (update_first _ _ before n after Hb Hp).
Qed.

(** X24. The client's local mark-read is idempotent: marking the same
    notification for the same user a second time, at whatever time, leaves
    the state of the first marking, receipts and counter included; and so is
    the local mark-all-read. *)
Theorem markAsReadLocally_idempotent state notificationId userId t1 t2 :
  NotificationsSlice.markAsReadLocally
    (NotificationsSlice.markAsReadLocally state notificationId userId t1)
    notificationId userId t2
  = NotificationsSlice.markAsReadLocally state notificationId userId t1 /\
  NotificationsSlice.markAllAsReadLocally
    (NotificationsSlice.markAllAsReadLocally state userId t1) userId t2
  = NotificationsSlice.markAllAsReadLocally state userId t1.
Proof.
  split.
  - destruct (find (NotificationsSlice.hasId notificationId)
                (NotificationsSlice.notifications state)) as [n|] eqn:Hfind.
    + destruct (NotificationsSlice.readByUser userId n) eqn:Hread.
      * assert (Hsame : forall t, NotificationsSlice.markAsReadLocally state
                                    notificationId userId t = state).
        { intros t. unfold NotificationsSlice.markAsReadLocally.
          now rewrite Hfind, Hread. }
        rewrite (Hsame t1). apply Hsame.
      * destruct (markAsReadLocally_marks state notificationId userId t1 n
                    Hfind Hread) as (before & after & Hrows & Hb & Hp & ->).
        unfold NotificationsSlice.markAsReadLocally at 1.
        cbn [NotificationsSlice.notifications].
        change (find (NotificationsSlice.hasId notificationId)
                  (before ++ NotificationsSlice.pushRead userId t1 n :: after))
          with (Prisma.findFirst (NotificationsSlice.hasId notificationId)
                  (before ++ NotificationsSlice.pushRead userId t1 n :: after)).
        rewrite (findFirst_first _ _ before after
                   (NotificationsSlice.pushRead userId t1 n) Hb Hp).
        now rewrite readByUser_pushRead.
    + assert (Hsame : forall t, NotificationsSlice.markAsReadLocally state
                                  notificationId userId t = state).
      { intros t. unfold NotificationsSlice.markAsReadLocally. now rewrite Hfind. }
      rewrite (Hsame t1). apply Hsame.
  - unfold NotificationsSlice.markAllAsReadLocally. cbn. f_equal.
    rewrite map_map. apply map_ext. intros n.
    destruct (NotificationsSlice.readByUser userId n) eqn:Hread; cbn [negb].
    + now rewrite Hread.
    + now rewrite readByUser_pushRead.
Qed.

(** X25. Where the client's counter equals the number of notifications it
    holds without a read receipt of the user, it still does after a local
    mark-read and after a local mark-all-read for that user; and adding a
    notification that the user has not read keeps it as well. *)
Theorem local_reads_keep_counter state userId :
  NotificationsSlice.unreadCount state = NotificationsSlice.unreadOf userId state ->
  (forall notificationId now,
     let s1 := NotificationsSlice.markAsReadLocally state notificationId userId now in
     NotificationsSlice.unreadCount s1 = NotificationsSlice.unreadOf userId s1) /\
  (forall now,
     let s1 := NotificationsSlice.markAllAsReadLocally state userId now in
     NotificationsSlice.unreadCount s1 = NotificationsSlice.unreadOf userId s1) /\
  (forall payload,
     NotificationsSlice.readByUser userId payload = false ->
     let s1 := NotificationsSlice.addNotification state payload in
     NotificationsSlice.unreadCount s1 = NotificationsSlice.unreadOf userId s1).
Proof.
  intros Hinv. split; [|split].
  - intros notificationId now s1. subst s1.
    destruct (find (NotificationsSlice.hasId notificationId)
                (NotificationsSlice.notifications state)) as [n|] eqn:Hfind.
    + destruct (NotificationsSlice.readByUser userId n) eqn:Hread.
      * unfold NotificationsSlice.markAsReadLocally. now rewrite Hfind, Hread.
      * destruct (markAsReadLocally_marks state notificationId userId now n
                    Hfind Hread) as (before & after & Hrows & _ & _ & ->).
        cbn [NotificationsSlice.unreadCount]. rewrite unreadOf_split.
        rewrite readByUser_pushRead. rewrite Hinv.
        destruct state as [ns c l e]. cbn [NotificationsSlice.notifications] in Hrows.
        subst ns. rewrite unreadOf_split, Hread. lia.
    + unfold NotificationsSlice.markAsReadLocally. now rewrite Hfind.
  - intros now s1. subst s1.
    unfold NotificationsSlice.markAllAsReadLocally, NotificationsSlice.unreadOf.
    cbn [NotificationsSlice.unreadCount NotificationsSlice.notifications].
    induction (NotificationsSlice.notifications state) as [|n ns IH]; [reflexivity|].
    cbn [map filter].
    destruct (NotificationsSlice.readByUser userId n) eqn:Hread; cbn [negb].
    + rewrite Hread. cbn [negb]. exact IH.
    + rewrite readByUser_pushRead. cbn [negb]. exact IH.
  - intros payload Hunread s1. subst s1.
    unfold NotificationsSlice.addNotification, NotificationsSlice.unreadOf.
    cbn [NotificationsSlice.unreadCount NotificationsSlice.notifications filter].
    rewrite Hunread. cbn [negb List.length]. rewrite Hinv.
    unfold NotificationsSlice.unreadOf. lia.
Qed.

(** The theorem at the inbox: alice has read nothing, the counter is 2, and
    she marks the first notification. *)
Lemma local_reads_keep_counter_witness :
  let s1 := NotificationsSlice.markAsReadLocally Scenario.inbox "n1" "alice" 7000%Z in
  NotificationsSlice.unreadCount s1 = 1%Z /\
  NotificationsSlice.unreadOf "alice" s1 = 1%Z.
Proof.
  intros s1.
  destruct (local_reads_keep_counter Scenario.inbox "alice" eq_refl) as (Hmark & _).
  split; [reflexivity|].
  exact (eq_trans (eq_sym (Hmark "n1" 7000%Z)) eq_refl).
Defined.

(** X26. The local removal drifts: it lowers the counter only when the
    removed notification has no read receipt at all.  Where the counter
    equals the number of notifications without a read receipt of the user and
    ids are unique, removing a notification that others have read and the
    user has not leaves the counter one above that number. *)
Theorem removeNotificationLocally_drifts state userId n :
  NotificationsSlice.unreadCount state = NotificationsSlice.unreadOf userId state ->
  NoDup (map (fun x => Notification.id (NotificationsSlice.notification x))
           (NotificationsSlice.notifications state)) ->
  In n (NotificationsSlice.notifications state) ->
  NotificationsSlice.readBy n <> [] ->
  NotificationsSlice.readByUser userId n = false ->
  let s1 :=
    NotificationsSlice.removeNotificationLocally state
      (Notification.id (NotificationsSlice.notification n)) in
  NotificationsSlice.unreadCount s1 = (NotificationsSlice.unreadOf userId s1 + 1)%Z.
Proof.
  intros Hinv Hnd Hin Hreads Hunread s1. subst s1.
  destruct (in_split n _ Hin) as (before & after & Hrows).
  rewrite Hrows in Hnd.
  pose proof (unique_others
                (fun x => Notification.id (NotificationsSlice.notification x))
                before n after Hnd) as Hoth.
  assert (Hb : forall y, In y before ->
            NotificationsSlice.hasId
              (Notification.id (NotificationsSlice.notification n)) y = false).
  { intros y Hy. apply Hoth. apply in_or_app. now left. }
  assert (Ha : forall y, In y after ->
            NotificationsSlice.hasId
              (Notification.id (NotificationsSlice.notification n)) y = false).
  { intros y Hy. apply Hoth. apply in_or_app. now right. }
  assert (Hn : NotificationsSlice.hasId
                 (Notification.id (NotificationsSlice.notification n)) n = true)
    by apply String.eqb_refl.
  assert (Hkeep : forall l,
            (forall y, In y l ->
               NotificationsSlice.hasId
                 (Notification.id (NotificationsSlice.notification n)) y = false) ->
            filter (fun x => negb (NotificationsSlice.hasId
                                     (Notification.id (NotificationsSlice.notification n)) x)) l
            = l).
  { induction l as [|r l IH]; simpl; intros Hl; auto.
    rewrite (Hl r (or_introl eq_refl)). simpl. f_equal. apply IH.
    intros y Hy. apply Hl. now right. }
  unfold NotificationsSlice.removeNotificationLocally.
  change (find ?p ?l) with (Prisma.findFirst p l).
  rewrite Hrows, (findFirst_first _ _ before after n Hb Hn).
  destruct (NotificationsSlice.readBy n) as [|r rs] eqn:Hr; [now elim Hreads|].
  cbn [List.length Nat.eqb NotificationsSlice.unreadCount].
  rewrite Hinv. destruct state as [ns c l e].
  cbn [NotificationsSlice.notifications] in Hrows. subst ns.
  rewrite unreadOf_split, Hunread.
  unfold NotificationsSlice.unreadOf. cbn [NotificationsSlice.notifications].
  rewrite filter_app. cbn [filter]. rewrite Hn. cbn [negb].
  rewrite (Hkeep before Hb), (Hkeep after Ha), filter_app, length_app. lia.
Qed.

(** The theorem at the inbox: alice removes the notification that bob alone
    has read. *)
Lemma removeNotificationLocally_drifts_witness :
  let s1 := NotificationsSlice.removeNotificationLocally Scenario.inbox "n2" in
  NotificationsSlice.unreadCount s1 = 2%Z /\
  NotificationsSlice.unreadOf "alice" s1 = 1%Z.
Proof.
  intros s1.
  pose proof (removeNotificationLocally_drifts Scenario.inbox "alice"
                (NotificationsSlice.mkClientNotification
                   (Notification.mk "n2" "famA" "custom" "Bye" "Out of milk" []
                      None 6000%Z)
                   [NotificationsSlice.mkRead "bob" 6500%Z])
                eq_refl) as H.
  split; [|reflexivity].
  apply H.
  - simpl. repeat constructor; simpl; intuition discriminate.
  - simpl. tauto.
  - discriminate.
  - reflexivity.
Defined.

(** ** The primary key under the inventory writes *)

(** X27. The inventory writes keep the ids of the item rows unique: an add
    whose new id no row has, and every update and delete, which never change
    the id of a row. *)
Theorem inventory_writes_keep_ids_unique db userId :
  uniqueItemIds db ->
  (forall b now newId,
     (forall i, In i (inventoryItems db) -> InventoryItem.id i <> newId) ->
     uniqueItemIds (fst (InventoryController.addItem db userId b now newId))) /\
  (forall itemId b now,
     uniqueItemIds (fst (InventoryController.updateItem db userId itemId b now))) /\
  (forall itemId now,
     uniqueItemIds (fst (InventoryController.deleteItem db userId itemId now))).
Proof.
  intros Hnd. split; [|split].
  - intros b now newId Hfresh. unfold InventoryController.addItem.
    destruct (negb _); [exact Hnd|].
    destruct (findFamilyMember db userId) as [m|]; [|exact Hnd].
    destruct (Prisma.findFirst _ _) as [e|].
    + rewrite update_fst_snd. destruct (snd (Prisma.update _ _ _)); [|exact Hnd].
      unfold uniqueItemIds. cbn [fst inventoryItems withInventoryItems].
      rewrite update_map; [exact Hnd | reflexivity].
    + unfold uniqueItemIds, Prisma.create.
      cbn [fst inventoryItems withInventoryItems]. rewrite map_app.
      apply NoDup_app; [exact Hnd | repeat constructor; intros [] |].
      intros k Hk [<-|[]]. apply in_map_iff in Hk.
      destruct Hk as (i & Hid & Hi). exact (Hfresh i Hi Hid).
  - intros itemId b now. unfold InventoryController.updateItem.
    destruct (negb _); [exact Hnd|].
    destruct (findFamilyMember db userId) as [m|]; [|exact Hnd].
    destruct (Prisma.findFirst _ _) as [e|]; [|exact Hnd].
    rewrite update_fst_snd. destruct (snd (Prisma.update _ _ _)); [|exact Hnd].
    unfold uniqueItemIds. cbn [fst inventoryItems withInventoryItems].
    rewrite update_map; [exact Hnd|]. intros r. now rewrite applyUpdate_fields.
  - intros itemId now. unfold InventoryController.deleteItem.
    destruct (findFamilyMember db userId) as [m|]; [|exact Hnd].
    destruct (Prisma.findFirst _ _) as [e|]; [|exact Hnd].
    rewrite update_fst_snd. destruct (snd (Prisma.update _ _ _)); [|exact Hnd].
    unfold uniqueItemIds. cbn [fst inventoryItems withInventoryItems].
    rewrite update_map; [exact Hnd | reflexivity].
Qed.

(** The theorem at the sample store: alice adds "Bread" under a new id. *)
Lemma inventory_writes_keep_ids_unique_witness :
  uniqueItemIds
    (fst (InventoryController.addItem Sample.db "alice" Sample.addBread 7000%Z "i9")).
Proof.
  apply (proj1 (inventory_writes_keep_ids_unique Sample.db "alice"
                  sample_uniqueItemIds)).
  intros i [<-|[<-|[<-|[]]]]; discriminate.
Defined.
